(** * astroid/interpreter/objects.py: inference objects and their attribute protocol

    A shallow embedding of [astroid.interpreter.objects]: the runtime-object
    representations ([Instance], [UnboundMethod], [BoundMethod], [Generator],
    [Super]) and the attribute-resolution functions defined on them.

    Python exceptions are an error sum ([result]); generators are the finite
    list of values they yield together with the exception that ends them, if
    any ([gen]); the inference context's visited set lives in a store that is
    threaded through every call that can reach [context.push].  Everything the
    module imports from the rest of astroid (class descriptors, statement
    inference, the object model tables) is a field of the record [World].

    A generator that its consumer runs to the end (a [for] loop, [list]) is
    the computation [M gen] of all it yields.  A generator whose consumer
    takes one value with [next] and drops it is a [generator]: it is run as
    far as its first [yield] and no further, so that nothing it would have
    recorded later is in the store.  The functions of the module that are
    consumed in both ways have both forms, the second with the suffix
    [_gen]. *)

From Stdlib Require Import List String Ascii Bool Arith Lia.
Import ListNotations.
Open Scope string_scope.
Open Scope list_scope.

(** ** Nodes *)

(** The objects that flow through inference.  Tree nodes are identified by a
    number (Python compares them by identity); the objects of this module
    carry their fields. *)
Inductive node : Type :=
| Uninferable                                     (* util.Uninferable *)
| ClassDef (id : nat)                             (* treeabc.ClassDef *)
| FunctionDef (id : nat)                          (* treeabc.FunctionDef *)
| Lambda (id : nat)
| Other (id : nat)                                (* any other tree node *)
| Instance (_proxied : node)
| UnboundMethod (_proxied : node)
| BoundMethod (_proxied : node) (bound : node)
| Generator (parent : node)
| Super (mro_pointer type _self_class _scope : node) (_class_based : bool).

Fixpoint node_eqb (a b : node) {struct a} : bool :=
  match a, b with
  | Uninferable, Uninferable => true
  | ClassDef i, ClassDef j => Nat.eqb i j
  | FunctionDef i, FunctionDef j => Nat.eqb i j
  | Lambda i, Lambda j => Nat.eqb i j
  | Other i, Other j => Nat.eqb i j
  | Instance p, Instance q => node_eqb p q
  | UnboundMethod p, UnboundMethod q => node_eqb p q
  | BoundMethod p x, BoundMethod q y => node_eqb p q && node_eqb x y
  | Generator p, Generator q => node_eqb p q
  | Super a1 a2 a3 a4 f, Super b1 b2 b3 b4 g =>
      node_eqb a1 b1 && node_eqb a2 b2 && node_eqb a3 b3 && node_eqb a4 b4
      && Bool.eqb f g
  | _, _ => false
  end.

(** [isinstance(x, treeabc.ClassDef)] *)
Definition is_ClassDef (x : node) : bool :=
  match x with ClassDef _ => true | _ => false end.

(** [isinstance(x, treeabc.FunctionDef)] *)
Definition is_FunctionDef (x : node) : bool :=
  match x with FunctionDef _ => true | _ => false end.

(** [isinstance(x, runtimeabc.Instance)] *)
Definition is_Instance (x : node) : bool :=
  match x with Instance _ => true | _ => false end.

(** [isinstance(x, UnboundMethod)]; [BoundMethod] is a subclass. *)
Definition is_UnboundMethod (x : node) : bool :=
  match x with UnboundMethod _ | BoundMethod _ _ => true | _ => false end.

Definition is_Uninferable (x : node) : bool :=
  match x with Uninferable => true | _ => false end.

(** ** Inference contexts and the store of visited sets *)

Definition key : Type := node * string.

Definition key_eqb (a b : key) : bool :=
  node_eqb (fst a) (fst b) && String.eqb (snd a) (snd b).

(** Modelled from the spec: the context capability of the surrounding system
    ([contextmod.InferenceContext]), which is not part of this module.  A
    context has the mutable fields [callcontext] and [boundnode] and a visited
    set; [path] is the address of that set in the store, so that a clone shares
    the set of the context it was cloned from. *)
Record InferenceContext : Type := mkContext {
  path : nat;
  callcontext : option (list node);
  boundnode : option node
}.

Definition store : Type := list (list key).

Definition visited (s : store) (c : InferenceContext) : list key :=
  nth (path c) s [].

Definition mem_key (k : key) (p : list key) : bool := existsb (key_eqb k) p.

Fixpoint set_nth {A} (n : nat) (x : A) (l : list A) : list A :=
  match n, l with
  | _, [] => []
  | O, _ :: t => x :: t
  | S m, h :: t => h :: set_nth m x t
  end.

(** ** Errors, results and generators *)

(** The message an astroid exception is built with: a format string, or
    whatever other object the caller passes, here a tuple of strings. *)
Inductive message_text : Type :=
| Text (s : string)
| TextTuple (l : list string).

Coercion Text : string >-> message_text.

(** The keyword arguments an astroid exception is built with. *)
Record exc_info : Type := mkInfo {
  message : option message_text;
  target : option node;
  attribute : option string;
  context : option InferenceContext;
  super_ : option node;
  mros : option (list (list node));
  cls : option node;
  e_node : option node;
  caller : option node
}.

Definition no_info : exc_info :=
  mkInfo None None None None None None None None None.

Inductive exc : Type :=
| AttributeInferenceError (i : exc_info)
| InferenceError (i : exc_info)
| SuperError (i : exc_info)
| MroError (i : exc_info)
| StopIteration
| AttributeError.

(** [vars(error)] *)
Definition vars (e : exc) : exc_info :=
  match e with
  | AttributeInferenceError i | InferenceError i | SuperError i | MroError i => i
  | StopIteration | AttributeError => no_info
  end.

Inductive result (A : Type) : Type :=
| Ok (a : A)
| Raise (e : exc).
Arguments Ok {A} a.
Arguments Raise {A} e.

(** A generator run to exhaustion: the values it yields, in order, and the
    exception that ends the iteration, if one does. *)
Definition gen : Type := list node * option exc.

Definition gen_empty : gen := ([], None).
Definition gen_raise (e : exc) : gen := ([], Some e).
Definition gen_of_list (l : list node) : gen := (l, None).

(** The values [pre] were yielded, then the generator went on as [g]. *)
Definition gen_prepend (pre : list node) (g : gen) : gen :=
  (pre ++ fst g, snd g).

(** [next(g)] and [next(g, default)] on a fresh generator. *)
Definition next (g : gen) : result node :=
  match g with
  | (v :: _, _) => Ok v
  | ([], Some e) => Raise e
  | ([], None) => Raise StopIteration
  end.

Definition next_default (g : gen) : result (option node) :=
  match g with
  | (v :: _, _) => Ok (Some v)
  | ([], Some e) => Raise e
  | ([], None) => Ok None
  end.

(** ** The computation monad

    A computation reads and updates the store of visited sets; [None] is a
    computation that does not return. *)
Definition M (A : Type) : Type := store -> option (A * store).

Definition ret {A} (a : A) : M A := fun s => Some (a, s).

Definition bind {A B} (m : M A) (k : A -> M B) : M B :=
  fun s => match m s with
           | Some (a, s') => k a s'
           | None => None
           end.

Notation "x <- c ;; k" := (bind c (fun x => k))
  (at level 61, c at next level, right associativity).

(** Modelled from the spec: [InferenceContext()] allocates a context with an
    empty visited set of its own. *)
Definition new_context : M InferenceContext :=
  fun s => Some (mkContext (List.length s) None None, s ++ [[]]).

(** Modelled from the spec: [context.push((owner, name))] returns true if the
    pair was already visited, and records it otherwise. *)
Definition record_visit (c : InferenceContext) (k : key) (s : store) : store :=
  set_nth (path c) (k :: visited s c) s.

Definition push (c : InferenceContext) (k : key) : M bool :=
  fun s => if mem_key k (visited s c) then Some (true, s)
           else Some (false, record_visit c k s).

(** Modelled from the spec: [context.clone()]; the clone is a new context
    object with the same fields, sharing the visited set. *)
Definition clone (c : InferenceContext) : InferenceContext :=
  mkContext (path c) (callcontext c) (boundnode c).

Definition set_boundnode (c : InferenceContext) (b : node) : InferenceContext :=
  mkContext (path c) (callcontext c) (Some b).

Definition set_callcontext (c : InferenceContext) (args : list node)
  : InferenceContext :=
  mkContext (path c) (Some args) (boundnode c).

(** [if not context: context = contextmod.InferenceContext()] *)
Definition context_or_new (c : option InferenceContext) : M InferenceContext :=
  match c with
  | Some c => ret c
  | None => new_context
  end.

(** ** Generators

    A suspended generator: it has ended (normally, or with an exception), or
    it yields a value and goes on, or it runs code on the store first. *)
#[warnings="-register-all"]
Inductive generator : Type :=
| Stop (e : option exc)
| Yield (v : node) (rest : generator)
| Step (run : M generator).

(** [next(g, None)]: the generator is run up to its first [yield]. *)
Fixpoint first_value (g : generator) : M (result (option node)) :=
  match g with
  | Stop None => ret (Ok None)
  | Stop (Some e) => ret (Raise e)
  | Yield v _ => ret (Ok (Some v))
  | Step run =>
      fun s => match run s with
               | Some (g', s') => first_value g' s'
               | None => None
               end
  end.

(** [list(g)], with the exception that ends it. *)
Fixpoint exhaust (g : generator) : M gen :=
  match g with
  | Stop e => ret ([], e)
  | Yield v rest => r <- exhaust rest ;; ret (gen_prepend [v] r)
  | Step run =>
      fun s => match run s with
               | Some (g', s') => exhaust g' s'
               | None => None
               end
  end.

(** [iter(l)], and the generator that yields [l] and then ends as [tail]. *)
Fixpoint yield_all (l : list node) (tail : option exc) : generator :=
  match l with
  | [] => Stop tail
  | v :: l' => Yield v (yield_all l' tail)
  end.

Definition yield_list (l : list node) : generator := yield_all l None.

(** Code that runs before the generator [k] starts. *)
Definition delay {A} (m : M A) (k : A -> generator) : generator :=
  Step (fun s => match m s with
                 | Some (a, s') => Some (k a, s')
                 | None => None
                 end).

(** [yield from g], then [k] when [g] ended without an exception. *)
Fixpoint then_gen (g k : generator) : generator :=
  match g with
  | Stop None => k
  | Stop (Some e) => Stop (Some e)
  | Yield v rest => Yield v (then_gen rest k)
  | Step run =>
      Step (fun s => match run s with
                     | Some (g', s') => Some (then_gen g' k, s')
                     | None => None
                     end)
  end.

(** [for x in g: yield from body(x)] *)
Fixpoint for_each_gen (g : generator) (body : node -> generator) : generator :=
  match g with
  | Stop e => Stop e
  | Yield v rest => then_gen (body v) (for_each_gen rest body)
  | Step run =>
      Step (fun s => match run s with
                     | Some (g', s') => Some (for_each_gen g' body, s')
                     | None => None
                     end)
  end.

(** [(f(x) for x in g)] *)
Fixpoint map_gen (f : node -> node) (g : generator) : generator :=
  match g with
  | Stop e => Stop e
  | Yield v rest => Yield (f v) (map_gen f rest)
  | Step run =>
      Step (fun s => match run s with
                     | Some (g', s') => Some (map_gen f g', s')
                     | None => None
                     end)
  end.

(** [try: yield from g / except: ...]: the handler chooses the exceptions it
    takes and what the generator does then. *)
Fixpoint catch_gen (g : generator) (handler : exc -> option generator)
  : generator :=
  match g with
  | Stop None => Stop None
  | Stop (Some e) =>
      match handler e with
      | Some h => h
      | None => Stop (Some e)
      end
  | Yield v rest => Yield v (catch_gen rest handler)
  | Step run =>
      Step (fun s => match run s with
                     | Some (g', s') => Some (catch_gen g' handler, s')
                     | None => None
                     end)
  end.

(** [yield from g] with a flag that the first [yield] sets; at the end, [e]
    is raised when the flag is not set. *)
Fixpoint raise_if_nothing (yielded : bool) (g : generator) (e : exc)
  : generator :=
  match g with
  | Stop None => if yielded then Stop None else Stop (Some e)
  | Stop (Some e') => Stop (Some e')
  | Yield v rest => Yield v (raise_if_nothing true rest e)
  | Step run =>
      Step (fun s => match run s with
                     | Some (g', s') => Some (raise_if_nothing yielded g' e, s')
                     | None => None
                     end)
  end.

(** The truth value of an inferred object: [True], [False] or [Uninferable]. *)
Inductive truth : Type := PyTrue | PyFalse | TruthUninferable.

(** ** Strings *)

(** [name.split(".")] *)
Fixpoint split_dot (s : string) : list string :=
  match s with
  | EmptyString => [EmptyString]
  | String c r =>
      if Ascii.eqb c "." then EmptyString :: split_dot r
      else match split_dot r with
           | h :: t => String c h :: t
           | [] => [String c EmptyString]
           end
  end.

(** [name.split(".")[-1]] *)
Definition last_component (s : string) : string := last (split_dot s) EmptyString.

Definition mem_string (x : string) (l : list string) : bool :=
  existsb (String.eqb x) l.

(** ** The surrounding system *)

(** What this module calls in the rest of astroid, taken as parameters. *)
Record World : Type := mkWorld {
  (* sys.version_info >= (3, 0) *)
  py3 : bool;
  (* bool(util.Uninferable) *)
  Uninferable_truth : bool;
  (* ClassDef.instance_attr(name, context) *)
  instance_attr : node -> string -> option InferenceContext -> result (list node);
  (* ClassDef.getattr(name, context, class_context) *)
  class_getattr : node -> string -> option InferenceContext -> bool
                  -> result (list node);
  (* ClassDef.igetattr(name, context, class_context) *)
  class_igetattr : node -> string -> option InferenceContext -> bool -> M gen;
  (* ClassDef.newstyle and ClassDef.mro() *)
  newstyle : node -> bool;
  mro : node -> result (list node);
  (* name in cls.locals, and then cls[name] *)
  locals : node -> string -> option node;
  (* the object model table bound to an object; None when the attribute
     special_attributes is None *)
  special_attributes : node -> option (list (string * node));
  (* infer_stmts(stmts, context, frame) *)
  infer_stmts : gen -> option InferenceContext -> node -> M gen;
  (* FunctionDef.decoratornames(); None is Uninferable *)
  decoratornames : node -> list (option string);
  (* FunctionDef.type *)
  node_type : node -> string;
  (* node.name, when the node has one *)
  node_name : node -> option string;
  (* node.parent.frame().qname() *)
  parent_frame_qname : node -> string;
  (* isinstance(node.statement().scope(), treeabc.ClassDef) *)
  statement_scope_is_class : node -> bool;
  (* node.args.args[0].name, when node.args.args is not empty *)
  first_arg_name : node -> option string;
  (* caller.args *)
  caller_args : node -> list node;
  (* x.infer(context) *)
  node_infer : node -> option InferenceContext -> M gen;
  (* x.infer_call_result(caller, context) of a tree node *)
  node_infer_call_result : node -> node -> option InferenceContext -> M gen;
  (* hasattr(x, 'infer_call_result'), x.callable(), x.bool_value() for an
     object met during inference *)
  has_infer_call_result : node -> bool;
  node_callable : node -> bool;
  node_bool_value : node -> M (result truth);
  (* MANAGER.builtins().getattr(name)[0] *)
  builtin : string -> node
}.

(** The generators this module gets from the rest of astroid, as generators:
    what the fields [class_igetattr], [infer_stmts], [node_infer] and
    [node_infer_call_result] of [World] are when they are not run to the
    end. *)
Record Generators : Type := mkGenerators {
  class_igetattr_gen : node -> string -> option InferenceContext -> bool
                       -> generator;
  infer_stmts_gen : generator -> option InferenceContext -> node -> generator;
  node_infer_gen : node -> option InferenceContext -> generator;
  node_infer_call_result_gen : node -> node -> option InferenceContext
                               -> generator
}.

Section Objects.

Variable W : World.
Variable G : Generators.

Definition BUILTINS : string := if py3 W then "builtins" else "__builtin__".

Definition BOOL_SPECIAL_METHOD : string :=
  if py3 W then "__bool__" else "__nonzero__".

Definition PROPERTIES : list string :=
  [String.append BUILTINS ".property"; "abc.abstractproperty"].

Definition POSSIBLE_PROPERTIES : list string :=
  ["cached_property"; "cachedproperty"; "lazyproperty"; "lazy_property";
   "reify"; "lazyattribute"; "lazy_attribute"; "LazyProperty"; "lazy"].

(** The decorator names that are strings. *)
Fixpoint inferable_names (l : list (option string)) : list string :=
  match l with
  | [] => []
  | Some n :: t => n :: inferable_names t
  | None :: t => inferable_names t
  end.

Definition is_property (meth : node) : bool :=
  if existsb (fun p => mem_string p (inferable_names (decoratornames W meth)))
       PROPERTIES
  then true
  else
    let stripped := map last_component (inferable_names (decoratornames W meth)) in
    existsb (fun name => mem_string name stripped) POSSIBLE_PROPERTIES.

(** [Proxy]: the attribute [_proxied] of an object of this module. *)
Definition proxied (x : node) : option node :=
  match x with
  | Instance p | UnboundMethod p | BoundMethod p _ => Some p
  | Generator _ => Some (builtin W "generator")
  | Super _ _ _ _ _ => Some (builtin W "super")
  | _ => None
  end.

(** [name in self.special_attributes] and [self.special_attributes.lookup(name)] *)
Fixpoint assoc (name : string) (l : list (string * node)) : option node :=
  match l with
  | [] => None
  | (k, v) :: t => if String.eqb name k then Some v else assoc name t
  end.

Definition special_lookup (self : node) (name : string) : option node :=
  match special_attributes W self with
  | Some tbl => assoc name tbl
  | None => None
  end.

(** *** BaseInstance *)

Definition BaseInstance_getattr (self : node) (name : string)
    (context : option InferenceContext) (lookupclass : bool)
  : result (list node) :=
  match proxied self with
  | None => Raise AttributeError
  | Some p =>
  match instance_attr W p name context with
  | Raise (AttributeInferenceError _) =>
      match special_lookup self name with
      | Some v => Ok [v]
      | None =>
          if lookupclass then class_getattr W p name context false
          else Raise (AttributeInferenceError
                        (mkInfo None (Some self) (Some name) context
                                None None None None None))
      end
  | Raise e => Raise e
  | Ok values =>
      if lookupclass then
        match class_getattr W p name context false with
        | Ok cvalues => Ok (values ++ cvalues)
        | Raise (AttributeInferenceError _) => Ok values
        | Raise e => Raise e
        end
      else Ok values
  end
  end.

(** [for x in g: <body x>], where the body yields: the values of the bodies
    in order; an exception raised by a body, or by [g] once its values are
    used up, ends the iteration. *)
Fixpoint for_list (l : list node) (tail : option exc) (body : node -> M gen)
  : M gen :=
  match l with
  | [] => ret ([], tail)
  | x :: rest =>
      g <- body x ;;
      match snd g with
      | Some e => ret g
      | None => r <- for_list rest tail body ;; ret (gen_prepend (fst g) r)
      end
  end.

Definition for_each (g : gen) (body : node -> M gen) : M gen :=
  for_list (fst g) (snd g) body.

(** [Proxy.__getattr__]: an attribute the object does not define itself is
    read on the proxied object. *)
Fixpoint forwarded (x : node) : node :=
  match x with
  | Instance p | UnboundMethod p | BoundMethod p _ => forwarded p
  | _ => x
  end.

(** *** Method variants *)

Definition UnboundMethod_infer_call_result (p : node) (caller : node)
    (context : option InferenceContext) : M gen :=
  if (match node_name W p with Some n => String.eqb n "__new__" | None => false end)
     && String.eqb (parent_frame_qname W p) (String.append BUILTINS ".object")
  then
    infer <- (match caller_args W caller with
              | a :: _ => node_infer W a None
              | [] => ret gen_empty
              end) ;;
    ret (map (fun x => if is_Uninferable x && Uninferable_truth W then x
                       else Instance x) (fst infer),
         snd infer)
  else node_infer_call_result W p caller context.

Definition BoundMethod_infer_call_result (p bound : node) (caller : node)
    (context : option InferenceContext) : M gen :=
  context <- context_or_new context ;;
  let context := clone context in
  let context := set_boundnode context bound in
  UnboundMethod_infer_call_result p caller (Some context).

(** [meth.infer_call_result(caller, context)] on an object met during
    inference: the methods of this module for its method objects, the
    surrounding system's for everything else. *)
Definition infer_call_result (x : node) (caller : node)
    (context : option InferenceContext) : M gen :=
  match x with
  | UnboundMethod p => UnboundMethod_infer_call_result p caller context
  | BoundMethod p b => BoundMethod_infer_call_result p b caller context
  | _ => node_infer_call_result W x caller context
  end.

(** *** BaseInstance, continued *)

(** The body of the loop of [_wrap_attr]. *)
Definition _wrap_attr_body (self : node) (context : option InferenceContext)
    (attr : node) : M gen :=
  if is_UnboundMethod attr then
    if is_property (forwarded attr) then infer_call_result attr self context
    else ret (gen_of_list
                [BoundMethod (match proxied attr with Some f => f | None => attr end)
                             self])
  else if (match node_name W (forwarded attr) with
           | Some n => String.eqb n "<lambda>"
           | None => false
           end)
  then
    if statement_scope_is_class W attr
       && (match first_arg_name W attr with
           | Some a => String.eqb a "self"
           | None => false
           end)
    then ret (gen_of_list [BoundMethod attr self])
    else ret (gen_of_list [attr])
  else ret (gen_of_list [attr]).

Definition _wrap_attr (self : node) (attrs : gen)
    (context : option InferenceContext) : M gen :=
  for_each attrs (_wrap_attr_body self context).

(** The [try] body of [igetattr] after the guard: [getattr], re-wrapping,
    statement inference. *)
Definition igetattr_instance_path (self : node) (name : string)
    (context : InferenceContext) : M gen :=
  match BaseInstance_getattr self name (Some context) false with
  | Raise e => ret (gen_raise e)
  | Ok attrs =>
      wrapped <- _wrap_attr self (gen_of_list attrs) (Some context) ;;
      infer_stmts W wrapped (Some context) self
  end.

(** The handler of [igetattr]: the class's own [igetattr], re-wrapped; an
    [AttributeInferenceError] leaves as an [InferenceError]. *)
Definition igetattr_class_path (self p : node) (name : string)
    (context : InferenceContext) : M gen :=
  attrs <- class_igetattr W p name (Some context) false ;;
  second <- _wrap_attr self attrs (Some context) ;;
  match snd second with
  | Some (AttributeInferenceError i) =>
      ret (fst second, Some (InferenceError (vars (AttributeInferenceError i))))
  | _ => ret second
  end.

Definition BaseInstance_igetattr (self : node) (name : string)
    (context : option InferenceContext) : M gen :=
  context <- context_or_new context ;;
  match proxied self with
  | None => ret (gen_raise AttributeError)
  | Some p =>
      seen <- push context (p, name) ;;
      if seen then ret gen_empty
      else
        first <- igetattr_instance_path self name context ;;
        match snd first with
        | Some (AttributeInferenceError _) =>
            second <- igetattr_class_path self p name context ;;
            ret (gen_prepend (fst first) second)
        | _ => ret first
        end
  end.

Definition Instance_callable (self : node) : result bool :=
  match proxied self with
  | None => Raise AttributeError
  | Some p =>
      match class_getattr W p "__call__" None false with
      | Ok _ => Ok true
      | Raise (AttributeInferenceError _) => Ok false
      | Raise e => Raise e
      end
  end.

(** [Instance.callable], and [x.callable()] on an object met during
    inference. *)
Definition callable (x : node) : result bool :=
  match x with
  | Instance _ => Instance_callable x
  | Generator _ => Ok false
  | _ => Ok (node_callable W (forwarded x))
  end.

Definition BaseInstance_infer_call_result (self : node) (caller : node)
    (context : option InferenceContext) : M gen :=
  match proxied self with
  | None => ret (gen_raise AttributeError)
  | Some p =>
      calls <- class_igetattr W p "__call__" context true ;;
      r <- for_each calls (fun n =>
             if is_Uninferable n then ret gen_empty
             else
               match callable n with
               | Raise e => ret (gen_raise e)
               | Ok false => ret gen_empty
               | Ok true => infer_call_result n caller context
               end) ;;
      match r with
      | ([], None) =>
          ret (gen_raise (InferenceError
                 (mkInfo None None None context None None None
                         (Some self) (Some caller))))
      | _ => ret r
      end
  end.

(** *** Instance *)

(** [x.infer(context)] on an object met during inference: [Proxy.infer]
    yields the object itself. *)
Definition infer (x : node) (context : option InferenceContext) : M gen :=
  match x with
  | Instance _ | UnboundMethod _ | BoundMethod _ _ | Generator _ =>
      ret (gen_of_list [x])
  | _ => node_infer W x context
  end.

(** [Method.bool_value] and [Generator.bool_value] are true; any other
    object, an instance included, is asked through the surrounding system. *)
Definition bool_value_of (x : node) : M (result truth) :=
  match x with
  | UnboundMethod _ | BoundMethod _ _ | Generator _ => ret (Ok PyTrue)
  | _ => node_bool_value W x
  end.

(** [if meth and hasattr(meth, 'infer_call_result')] *)
Definition usable_method (meth : node) : bool :=
  match meth with
  | Uninferable => Uninferable_truth W
  | Instance _ | UnboundMethod _ | BoundMethod _ _ | Generator _ => true
  | _ => has_infer_call_result W meth
  end.

(** *** The generators of the module, not run to the end *)

Definition UnboundMethod_infer_call_result_gen (p : node) (caller : node)
    (context : option InferenceContext) : generator :=
  if (match node_name W p with Some n => String.eqb n "__new__" | None => false end)
     && String.eqb (parent_frame_qname W p) (String.append BUILTINS ".object")
  then
    map_gen (fun x => if is_Uninferable x && Uninferable_truth W then x
                      else Instance x)
            (match caller_args W caller with
             | a :: _ => node_infer_gen G a None
             | [] => Stop None
             end)
  else node_infer_call_result_gen G p caller context.

Definition BoundMethod_infer_call_result_gen (p bound : node) (caller : node)
    (context : option InferenceContext) : generator :=
  delay (context_or_new context) (fun context =>
    let context := clone context in
    let context := set_boundnode context bound in
    UnboundMethod_infer_call_result_gen p caller (Some context)).

Definition infer_call_result_gen (x : node) (caller : node)
    (context : option InferenceContext) : generator :=
  match x with
  | UnboundMethod p => UnboundMethod_infer_call_result_gen p caller context
  | BoundMethod p b => BoundMethod_infer_call_result_gen p b caller context
  | _ => node_infer_call_result_gen G x caller context
  end.

Definition _wrap_attr_body_gen (self : node) (context : option InferenceContext)
    (attr : node) : generator :=
  if is_UnboundMethod attr then
    if is_property (forwarded attr) then infer_call_result_gen attr self context
    else yield_list
           [BoundMethod (match proxied attr with Some f => f | None => attr end)
                        self]
  else if (match node_name W (forwarded attr) with
           | Some n => String.eqb n "<lambda>"
           | None => false
           end)
  then
    if statement_scope_is_class W attr
       && (match first_arg_name W attr with
           | Some a => String.eqb a "self"
           | None => false
           end)
    then yield_list [BoundMethod attr self]
    else yield_list [attr]
  else yield_list [attr].

Definition _wrap_attr_gen (self : node) (attrs : generator)
    (context : option InferenceContext) : generator :=
  for_each_gen attrs (_wrap_attr_body_gen self context).

Definition BaseInstance_igetattr_gen (self : node) (name : string)
    (context : option InferenceContext) : generator :=
  delay (context_or_new context) (fun context =>
    match proxied self with
    | None => Stop (Some AttributeError)
    | Some p =>
        delay (push context (p, name)) (fun seen =>
          if seen then Stop None
          else
            catch_gen
              (match BaseInstance_getattr self name (Some context) false with
               | Raise e => Stop (Some e)
               | Ok attrs =>
                   infer_stmts_gen G
                     (_wrap_attr_gen self (yield_list attrs) (Some context))
                     (Some context) self
               end)
              (fun e =>
                 match e with
                 | AttributeInferenceError _ =>
                     Some (catch_gen
                             (_wrap_attr_gen self
                                (class_igetattr_gen G p name (Some context) false)
                                (Some context))
                             (fun error =>
                                match error with
                                | AttributeInferenceError _ =>
                                    Some (Stop (Some (InferenceError (vars error))))
                                | _ => None
                                end))
                 | _ => None
                 end))
    end).

Definition BaseInstance_infer_call_result_gen (self : node) (caller : node)
    (context : option InferenceContext) : generator :=
  match proxied self with
  | None => Stop (Some AttributeError)
  | Some p =>
      raise_if_nothing false
        (for_each_gen (class_igetattr_gen G p "__call__" context true)
           (fun n =>
              if is_Uninferable n then Stop None
              else
                match callable n with
                | Raise e => Stop (Some e)
                | Ok false => Stop None
                | Ok true => infer_call_result_gen n caller context
                end))
        (InferenceError
           (mkInfo None None None context None None None
                   (Some self) (Some caller)))
  end.

(** [x.infer(context)] as a generator. *)
Definition infer_gen (x : node) (context : option InferenceContext) : generator :=
  match x with
  | Instance _ | UnboundMethod _ | BoundMethod _ _ | Generator _ =>
      yield_list [x]
  | _ => node_infer_gen G x context
  end.

(** [_infer_method_result_truth]: the method is the first value of
    [igetattr], taken with [next(..., None)]; the loop over the call results
    returns at its first value; the value inferred is taken with [next]. *)
Definition _infer_method_result_truth (instance : node) (method_name : string)
    (context : InferenceContext) : M (result truth) :=
  m <- first_value (BaseInstance_igetattr_gen instance method_name (Some context)) ;;
  match m with
  | Raise e => ret (Raise e)
  | Ok None => ret (Ok TruthUninferable)
  | Ok (Some meth) =>
      if usable_method meth then
        match callable meth with
        | Raise e => ret (Raise e)
        | Ok false => ret (Ok TruthUninferable)
        | Ok true =>
            v <- first_value (infer_call_result_gen meth instance (Some context)) ;;
            match v with
            | Raise e => ret (Raise e)
            | Ok None => ret (Ok TruthUninferable)
            | Ok (Some value) =>
                if is_Uninferable value then ret (Ok TruthUninferable)
                else
                  i <- first_value (infer_gen value (Some context)) ;;
                  match i with
                  | Raise e => ret (Raise e)
                  | Ok None => ret (Raise StopIteration)
                  | Ok (Some inferred) => bool_value_of inferred
                  end
            end
        end
      else ret (Ok TruthUninferable)
  end.

(** [except (exceptions.InferenceError, exceptions.AttributeInferenceError)] *)
Definition inference_failure (e : exc) : bool :=
  match e with
  | InferenceError _ | AttributeInferenceError _ => true
  | _ => false
  end.

Definition Instance_bool_value (self : node) : M (result truth) :=
  context <- new_context ;;
  let context := set_callcontext context [self] in
  r <- _infer_method_result_truth self BOOL_SPECIAL_METHOD context ;;
  match r with
  | Ok result => ret (Ok result)
  | Raise e =>
      if inference_failure e then
        r2 <- _infer_method_result_truth self "__len__" context ;;
        match r2 with
        | Ok result => ret (Ok result)
        | Raise e2 => if inference_failure e2 then ret (Ok PyTrue)
                      else ret (Raise e2)
        end
      else ret (Raise e)
  end.

(** [Instance.getitem].  Without a context the new context is both [context]
    and [new_context], so the attribute lookup sees the call arguments and the
    bound node too; with one, the lookup uses the caller's context and the
    call a clone of it.  Both [next] take the first value of a generator that
    is not run further.  The keyword [index] of the second error is not among
    the fields [exc_info] keeps. *)
Definition Instance_getitem (self index : node)
    (context : option InferenceContext) : M (result node) :=
  contexts <- (match context with
               | Some c =>
                   ret (c, set_boundnode (set_callcontext (clone c) [index]) self)
               | None =>
                   c <- new_context ;;
                   let c := set_boundnode (set_callcontext c [index]) self in
                   ret (c, c)
               end) ;;
  let '(context, new_context) := contexts in
  m <- first_value (BaseInstance_igetattr_gen self "__getitem__" (Some context)) ;;
  match m with
  | Raise e => ret (Raise e)
  | Ok None => ret (Raise StopIteration)
  | Ok (Some method) =>
      match method with
      | BoundMethod _ _ =>
          r <- first_value (infer_call_result_gen method self (Some new_context)) ;;
          match r with
          | Ok (Some v) => ret (Ok v)
          | Ok None | Raise StopIteration =>
              ret (Raise (InferenceError
                     (mkInfo (Some (Text "Inference for {node!r}[{index!s}] failed."))
                             None None (Some context) None None None
                             (Some self) None)))
          | Raise e => ret (Raise e)
          end
      | _ =>
          ret (Raise (InferenceError
                 (mkInfo (Some (Text "Could not find __getitem__ for {node!r}."))
                         None None (Some context) None None None
                         (Some self) None)))
      end
  end.

(** *** Super *)

Definition super_error (msg : string) (self : node) : exc :=
  SuperError (mkInfo (Some (Text msg)) None None None (Some self)
                     None None None None).

Definition second_argument_message : string :=
  "The second argument to super must be an instance or subtype of type, not {type}.".

Fixpoint index_of (x : node) (l : list node) : nat :=
  match l with
  | [] => 0
  | h :: t => if node_eqb h x then 0 else S (index_of x t)
  end.

Definition mem_node (x : node) (l : list node) : bool := existsb (node_eqb x) l.

(** [super_mro] sets [self._class_based]; the object after the call is
    returned with the result. *)
Definition Super_super_mro (self : node) : result (list node) * node :=
  match self with
  | Super mro_pointer type self_class scope class_based =>
      if negb (is_ClassDef mro_pointer) then
        (Raise (super_error
           "The first argument to super must be a subtype of type, not {mro_pointer}."
           self), self)
      else
        let '(self, found) :=
          if is_ClassDef type
          then (Super mro_pointer type self_class scope true, Some type)
          else (self,
                match proxied type with
                | Some t => if is_Instance t || is_ClassDef t then Some t else None
                | None => None
                end) in
        match found with
        | None => (Raise (super_error second_argument_message self), self)
        | Some mro_type =>
            if negb (newstyle W (forwarded mro_type)) then
              (Raise (super_error "Unable to call super on old-style classes." self),
               self)
            else
              match mro W (forwarded mro_type) with
              | Raise e => (Raise e, self)
              | Ok mro =>
                  if negb (mem_node mro_pointer mro) then
                    (Raise (super_error second_argument_message self), self)
                  else
                    let index := index_of mro_pointer mro in
                    (Ok (skipn (index + 1) mro), self)
              end
        end
  | _ => (Raise AttributeError, self)
  end.

(** [type] resolves to the class [target] whose MRO is walked; [self'] is the
    super object once [super_mro] has set its [_class_based] flag. *)
Definition resolves_to (p t sc scope : node) (cb : bool) (target self' : node)
  : Prop :=
  (is_ClassDef t = true /\ target = t /\ self' = Super p t sc scope true)
  \/ (is_ClassDef t = false /\ proxied t = Some target
      /\ is_Instance target || is_ClassDef target = true
      /\ self' = Super p t sc scope cb).

Definition is_class_based (self : node) : bool :=
  match self with
  | Super _ _ _ _ b => b
  | _ => false
  end.

Definition scope_of (self : node) : node :=
  match self with
  | Super _ _ _ scope _ => scope
  | _ => self
  end.

(** The body of the inner loop of [Super.igetattr]: what is yielded for one
    inferred declaration found in the class [cls]. *)
Definition Super_igetattr_inferred (self cls : node)
    (context : option InferenceContext) (inferred : node) : M gen :=
  if negb (is_FunctionDef inferred) then ret (gen_of_list [inferred])
  else if String.eqb (node_type W inferred) "classmethod"
  then ret (gen_of_list [BoundMethod inferred cls])
  else if String.eqb (node_type W (scope_of self)) "classmethod"
          && String.eqb (node_type W inferred) "method"
  then ret (gen_of_list [inferred])
  else if is_class_based self || String.eqb (node_type W inferred) "staticmethod"
  then ret (gen_of_list [inferred])
  else if is_property inferred
  then node_infer_call_result W inferred self context
  else ret (gen_of_list [BoundMethod inferred cls]).

(** The walk over the MRO. *)
Fixpoint Super_igetattr_walk (self : node) (name : string)
    (context : option InferenceContext) (mro : list node) (found : bool)
  : M gen :=
  match mro with
  | [] =>
      if found then ret gen_empty
      else ret (gen_raise (AttributeInferenceError
                  (mkInfo None (Some self) (Some name) context
                          None None None None None)))
  | cls :: rest =>
      match locals W cls name with
      | None => Super_igetattr_walk self name context rest found
      | Some stmt =>
          stmts <- infer_stmts W (gen_of_list [stmt]) context self ;;
          g <- for_each stmts (Super_igetattr_inferred self cls context) ;;
          match snd g with
          | Some e => ret g
          | None =>
              r <- Super_igetattr_walk self name context rest true ;;
              ret (gen_prepend (fst g) r)
          end
      end
  end.

(** The source ends the assignment of this message with a comma: the
    message is a one-element tuple. *)
Definition invalid_super_message : message_text :=
  TextTuple
    ["Lookup for {name} on {target!r} because super call {super!r} is invalid."].

Definition invalid_mro_message : message_text :=
  "Lookup for {name} on {target!r} failed because {cls!r} has an invalid MRO.".

Definition Super_igetattr (self : node) (name : string)
    (context : option InferenceContext) : M gen :=
  match special_lookup self name with
  | Some v => ret (gen_of_list [v])
  | None =>
      let '(r, self) := Super_super_mro self in
      match r with
      | Raise (SuperError i) =>
          ret (gen_raise (AttributeInferenceError
                 (mkInfo (Some invalid_super_message) (Some self) (Some name)
                         context (super_ i) None None None None)))
      | Raise (MroError i) =>
          ret (gen_raise (AttributeInferenceError
                 (mkInfo (Some invalid_mro_message) (Some self) (Some name)
                         context None (mros i) (cls i) None None)))
      | Raise e => ret (gen_raise e)
      | Ok mro => Super_igetattr_walk self name context mro false
      end
  end.

(** [list(self.igetattr(name, context=context))] *)
Definition Super_getattr (self : node) (name : string)
    (context : option InferenceContext) : M (result (list node)) :=
  g <- Super_igetattr self name context ;;
  match snd g with
  | Some e => ret (Raise e)
  | None => ret (Ok (fst g))
  end.

End Objects.

(** ** A program model: classes whose property getters are attribute chains

    Modelled from the spec: the class descriptors ([ClassDef] with its
    [locals], [instance_attr], [getattr], [igetattr], [mro], [newstyle]), the
    statement inference [infer_stmts], the call inference of function
    declarations and the object model tables, all of which live outside this
    module.  The tables below describe a program of classes whose functions
    return an attribute chain on their receiver ([return self.a.b]), and
    [world_of] is the surrounding system for such a program: attribute access
    on an instance inside a getter comes back to [BaseInstance.igetattr]
    through [cb_igetattr]. *)
Module Chains.

(** What a class body or a getter can name: a function, an integer constant,
    an instance of a class, a class. *)
Inductive decl : Type :=
| DFunction (f : nat)
| DConst (k : nat)
| DInstance (c : nat)
| DClass (c : nat).

(** [Other k] stands for the integer constant [k]. *)
Definition node_of (d : decl) : node :=
  match d with
  | DFunction f => FunctionDef f
  | DConst k => Other k
  | DInstance c => Instance (ClassDef c)
  | DClass c => ClassDef c
  end.

Inductive expr : Type :=
| Self
| Const (d : decl)
| Attr (e : expr) (name : string).

Record function_decl : Type := mkFunction {
  f_name : string;
  f_type : string;
  f_decorators : list (option string);
  f_frame : string;
  f_returns : expr
}.

Record class_decl : Type := mkClass {
  c_mro : list nat;
  c_newstyle : bool;
  c_locals : list (string * decl);
  c_instance_attrs : list (string * decl)
}.

Record table : Type := mkTable {
  classes : list class_decl;
  functions : list function_decl;
  builtins : list (string * node)
}.

Section WorldOf.

Variable T : table.
Variable cb_igetattr : node -> string -> option InferenceContext -> M gen.
Variable cb_bool_value : node -> M (result truth).
Variable cb_infer_call_result : node -> node -> option InferenceContext -> M gen.

(** The declarations of [name] in a list of declarations. *)
Fixpoint declared (name : string) (l : list (string * decl)) : list node :=
  match l with
  | [] => []
  | (k, d) :: t => if String.eqb name k then node_of d :: declared name t
                   else declared name t
  end.

(** The declarations of [name] in the class [c] and its ancestors, in MRO
    order. *)
Definition lookup_in (field : class_decl -> list (string * decl)) (c : node)
    (name : string) : list node :=
  match c with
  | ClassDef i =>
      match nth_error (classes T) i with
      | Some d =>
          flat_map (fun j => match nth_error (classes T) j with
                             | Some dj => declared name (field dj)
                             | None => []
                             end) (c_mro d)
      | None => []
      end
  | _ => []
  end.

Definition not_found (c : node) (name : string)
    (context : option InferenceContext) : exc :=
  AttributeInferenceError
    (mkInfo None (Some c) (Some name) context None None None None None).

Definition t_instance_attr (c : node) (name : string)
    (context : option InferenceContext) : result (list node) :=
  match lookup_in c_instance_attrs c name with
  | [] => Raise (not_found c name context)
  | l => Ok l
  end.

Definition t_getattr (c : node) (name : string)
    (context : option InferenceContext) (class_context : bool)
  : result (list node) :=
  match lookup_in c_locals c name with
  | [] => Raise (not_found c name context)
  | l => Ok l
  end.

Definition t_function (x : node) : option function_decl :=
  match x with
  | FunctionDef f => nth_error (functions T) f
  | _ => None
  end.

Definition t_type (x : node) : string :=
  match t_function x with
  | Some d => f_type d
  | None => ""
  end.

(** What a class hands out for a function found among its attributes. *)
Definition function_to_method (c x : node) : node :=
  match x with
  | FunctionDef _ =>
      if String.eqb (t_type x) "classmethod" then BoundMethod x c
      else if String.eqb (t_type x) "staticmethod" then x
      else UnboundMethod x
  | _ => x
  end.

Definition t_igetattr (c : node) (name : string)
    (context : option InferenceContext) (class_context : bool) : M gen :=
  match t_getattr c name context class_context with
  | Raise e => ret (gen_raise e)
  | Ok attrs => ret (gen_of_list (map (function_to_method c) attrs))
  end.

Definition t_mro (c : node) : result (list node) :=
  match c with
  | ClassDef i =>
      match nth_error (classes T) i with
      | Some d => Ok (map ClassDef (c_mro d))
      | None => Raise (MroError (mkInfo None None None None None (Some []) (Some c)
                                        None None))
      end
  | _ => Raise AttributeError
  end.

Definition t_newstyle (c : node) : bool :=
  match c with
  | ClassDef i =>
      match nth_error (classes T) i with
      | Some d => c_newstyle d
      | None => false
      end
  | _ => false
  end.

Definition t_locals (c : node) (name : string) : option node :=
  match c with
  | ClassDef i =>
      match nth_error (classes T) i with
      | Some d => hd_error (declared name (c_locals d))
      | None => None
      end
  | _ => None
  end.

(** Modelled from the spec: the object model tables
    ([interpreter.objectmodel]), the synthetic members every object of a kind
    has.  An instance has [__class__]; a super object has [__thisclass__] and
    [__self_class__]. *)
Definition t_special_attributes (x : node) : option (list (string * node)) :=
  match x with
  | Instance p => if is_ClassDef p then Some [("__class__", p)] else Some []
  | Super mro_pointer _ self_class _ _ =>
      Some [("__thisclass__", mro_pointer); ("__self_class__", self_class)]
  | _ => None
  end.

(** Modelled from the spec: [infer_stmts].  Every declaration of the
    program is an object that infers to itself; inferring nothing at all is an
    [InferenceError]. *)
Definition t_infer_stmts (stmts : gen) (context : option InferenceContext)
    (frame : node) : M gen :=
  match stmts with
  | ([], None) =>
      ret (gen_raise (InferenceError
             (mkInfo None None None context None None None (Some frame) None)))
  | _ => ret stmts
  end.

(** Modelled from the spec: inference of the expression a getter returns.
    Each owner the expression infers to is asked for the attribute, with
    [boundnode] set to the owner; an owner that fails to provide it
    contributes nothing. *)
Fixpoint eval (e : expr) (self : node) (context : InferenceContext) : M gen :=
  match e with
  | Self => ret (gen_of_list [self])
  | Const d => ret (gen_of_list [node_of d])
  | Attr e' name =>
      owners <- eval e' self context ;;
      for_each owners (fun owner =>
        if is_Uninferable owner then ret (gen_of_list [Uninferable])
        else if is_Instance owner then
          g <- cb_igetattr owner name (Some (set_boundnode context owner)) ;;
          match snd g with
          | Some e => if inference_failure e then ret (fst g, None) else ret g
          | None => ret g
          end
        else ret gen_empty)
  end.

Definition t_infer_call_result (x caller : node)
    (context : option InferenceContext) : M gen :=
  match x with
  | FunctionDef f =>
      match nth_error (functions T) f with
      | Some d =>
          context <- context_or_new context ;;
          eval (f_returns d)
               (match boundnode context with Some b => b | None => caller end)
               context
      | None => ret (gen_raise (InferenceError no_info))
      end
  | ClassDef _ => ret (gen_of_list [Instance x])
  | Instance _ => cb_infer_call_result x caller context
  | _ => ret (gen_raise (InferenceError no_info))
  end.

Definition is_tree_callable (x : node) : bool :=
  match x with
  | ClassDef _ | FunctionDef _ | Lambda _ => true
  | _ => false
  end.

Definition t_bool_value (x : node) : M (result truth) :=
  match x with
  | ClassDef _ | FunctionDef _ | Lambda _ => ret (Ok PyTrue)
  | Other k => ret (Ok (if Nat.eqb k 0 then PyFalse else PyTrue))
  | Instance _ => cb_bool_value x
  | _ => ret (Ok TruthUninferable)
  end.

Definition world_of : World :=
  {| py3 := true;
     Uninferable_truth := true;
     instance_attr := t_instance_attr;
     class_getattr := t_getattr;
     class_igetattr := t_igetattr;
     newstyle := t_newstyle;
     mro := t_mro;
     locals := t_locals;
     special_attributes := t_special_attributes;
     infer_stmts := t_infer_stmts;
     decoratornames := fun x => match t_function x with
                                | Some d => f_decorators d
                                | None => []
                                end;
     node_type := t_type;
     node_name := fun x => match t_function x with
                           | Some d => Some (f_name d)
                           | None => match x with
                                     | Lambda _ => Some "<lambda>"
                                     | _ => None
                                     end
                           end;
     parent_frame_qname := fun x => match t_function x with
                                    | Some d => f_frame d
                                    | None => ""
                                    end;
     statement_scope_is_class := fun _ => false;
     first_arg_name := fun _ => None;
     caller_args := fun _ => [];
     node_infer := fun x _ => ret (gen_of_list [x]);
     node_infer_call_result := t_infer_call_result;
     has_infer_call_result := is_tree_callable;
     node_callable := is_tree_callable;
     node_bool_value := t_bool_value;
     builtin := fun name => match assoc name (builtins T) with
                            | Some c => c
                            | None => Uninferable
                            end |}.

End WorldOf.

Section GeneratorsOf.

Variable T : table.
Variable cb_igetattr_gen : node -> string -> option InferenceContext -> generator.
Variable cb_infer_call_result_gen :
  node -> node -> option InferenceContext -> generator.

(** The generators of the same program, not run to the end. *)
Definition t_igetattr_gen (c : node) (name : string)
    (context : option InferenceContext) (class_context : bool) : generator :=
  match t_getattr T c name context class_context with
  | Raise e => Stop (Some e)
  | Ok attrs => yield_list (map (function_to_method T c) attrs)
  end.

Definition t_infer_stmts_gen (stmts : generator)
    (context : option InferenceContext) (frame : node) : generator :=
  raise_if_nothing false stmts
    (InferenceError
       (mkInfo None None None context None None None (Some frame) None)).

Fixpoint eval_gen (e : expr) (self : node) (context : InferenceContext)
  : generator :=
  match e with
  | Self => yield_list [self]
  | Const d => yield_list [node_of d]
  | Attr e' name =>
      for_each_gen (eval_gen e' self context) (fun owner =>
        if is_Uninferable owner then yield_list [Uninferable]
        else if is_Instance owner then
          catch_gen
            (cb_igetattr_gen owner name (Some (set_boundnode context owner)))
            (fun e => if inference_failure e then Some (Stop None) else None)
        else Stop None)
  end.

Definition t_infer_call_result_gen (x caller : node)
    (context : option InferenceContext) : generator :=
  match x with
  | FunctionDef f =>
      match nth_error (functions T) f with
      | Some d =>
          delay (context_or_new context) (fun context =>
            eval_gen (f_returns d)
              (match boundnode context with Some b => b | None => caller end)
              context)
      | None => Stop (Some (InferenceError no_info))
      end
  | ClassDef _ => yield_list [Instance x]
  | Instance _ => cb_infer_call_result_gen x caller context
  | _ => Stop (Some (InferenceError no_info))
  end.

Definition generators_of : Generators :=
  {| class_igetattr_gen := t_igetattr_gen;
     infer_stmts_gen := t_infer_stmts_gen;
     node_infer_gen := fun x _ => yield_list [x];
     node_infer_call_result_gen := t_infer_call_result_gen |}.

End GeneratorsOf.

(** The surrounding system with the recursion unfolded [fuel] times, in both
    forms: below that depth a call back into this module does not return. *)
Fixpoint level (T : table) (fuel : nat) : World * Generators :=
  match fuel with
  | O =>
      (world_of T (fun _ _ _ _ => None) (fun _ _ => None) (fun _ _ _ _ => None),
       generators_of T (fun _ _ _ => Step (fun _ => None))
                       (fun _ _ _ => Step (fun _ => None)))
  | S n =>
      let below := level T n in
      (world_of T (BaseInstance_igetattr (fst below))
                  (Instance_bool_value (fst below) (snd below))
                  (BaseInstance_infer_call_result (fst below)),
       generators_of T (BaseInstance_igetattr_gen (fst below) (snd below))
                       (BaseInstance_infer_call_result_gen (fst below)
                                                           (snd below)))
  end.

Definition world (T : table) (fuel : nat) : World := fst (level T fuel).

Definition generators (T : table) (fuel : nat) : Generators :=
  snd (level T fuel).

(** The pairs the recursion guard can ever be asked to record on the way
    into a getter: a class of the program with a name declared somewhere in
    the program. *)
Definition names (T : table) : list string :=
  flat_map (fun d => map fst (c_locals d) ++ map fst (c_instance_attrs d))
           (classes T).

Definition universe (T : table) : list key :=
  flat_map (fun i => map (fun n => (ClassDef i, n)) (names T))
           (seq 0 (List.length (classes T))).

(** The pairs of the universe that the visited set at address [r] lacks. *)
Definition remaining (T : table) (r : nat) (s : store) : nat :=
  List.length (filter (fun k => negb (mem_key k (nth r s []))) (universe T)).

Definition bound (T : table) : nat := List.length (universe T).

End Chains.

(** ** Relations on stores and computations

    Used to state how [igetattr] treats the store. *)

(** The store [s'] is a later state of [s]: no cell was dropped and the
    visited set at address [r] only grew. *)
Definition ext (r : nat) (s s' : store) : Prop :=
  List.length s <= List.length s'
  /\ forall k, mem_key k (nth r s []) = true -> mem_key k (nth r s' []) = true.

(** Two computations that, from every later state of [s0], return the same
    result and leave a later state. *)
Definition ok2 {A} (r : nat) (s0 : store) (m1 m2 : M A) : Prop :=
  forall s, ext r s0 s ->
    exists a s', m1 s = Some (a, s') /\ m2 s = Some (a, s') /\ ext r s s'.

(** The callbacks [cb1] and [cb2] agree, on instances and from every later
    state of [s0], when given a context whose visited set is at [r]. *)
Definition agree_from (r : nat) (s0 : store)
    (cb1 cb2 : node -> string -> option InferenceContext -> M gen) : Prop :=
  forall p n c, path c = r ->
    ok2 r s0 (cb1 (Instance p) n (Some c)) (cb2 (Instance p) n (Some c)).

(** A method object wraps a function. *)
Definition wraps_function (attr : node) : bool :=
  match attr with
  | UnboundMethod p | BoundMethod p _ => is_FunctionDef p
  | _ => true
  end.

(** ** A program used to run the theorems below on concrete input

    <<
    class A(object):                 # class 1; object is class 0
        n = 3
        def f(self): return 1        # function 0
        @property
        def p(self): return 5        # function 1
        @classmethod
        def cm(cls): return 2        # function 2
        @staticmethod
        def sm(): return 4           # function 3
        def __init__(self):
            self.n = 7
            self.only = 9
    class B(A): pass                 # class 2
    class C(B): pass                 # class 3
    class D(object): pass            # class 4
    class E(object):                 # class 5
        __bool__ = object()
        def __len__(self): return 0  # function 4
    class F(object):                 # class 6
        other = G()
        @property
        def x(self): return self.other.y   # function 5
        @property
        def z(self): return self.z         # function 6
    class G(object):                 # class 7
        back = F()
        @property
        def y(self): return self.back.x    # function 7
    >> *)
Module Demo.
Import Chains.

Definition program : table :=
  mkTable
    [ mkClass [0] true [] [];
      mkClass [1; 0] true
        [("n", DConst 3); ("f", DFunction 0); ("p", DFunction 1);
         ("cm", DFunction 2); ("sm", DFunction 3)]
        [("n", DConst 7); ("only", DConst 9)];
      mkClass [2; 1; 0] true [] [];
      mkClass [3; 2; 1; 0] true [] [];
      mkClass [4; 0] true [] [];
      mkClass [5; 0] true
        [("__bool__", DInstance 0); ("__len__", DFunction 4)] [];
      mkClass [6; 0] true
        [("other", DInstance 7); ("x", DFunction 5); ("z", DFunction 6)] [];
      mkClass [7; 0] true [("back", DInstance 6); ("y", DFunction 7)] [] ]
    [ mkFunction "f" "method" [] "demo.A" (Const (DConst 1));
      mkFunction "p" "method" [Some "builtins.property"] "demo.A" (Const (DConst 5));
      mkFunction "cm" "classmethod" [Some "builtins.classmethod"] "demo.A"
                 (Const (DConst 2));
      mkFunction "sm" "staticmethod" [Some "builtins.staticmethod"] "demo.A"
                 (Const (DConst 4));
      mkFunction "__len__" "method" [] "demo.E" (Const (DConst 0));
      mkFunction "x" "method" [Some "builtins.property"] "demo.F"
                 (Attr (Attr Self "other") "y");
      mkFunction "z" "method" [Some "builtins.property"] "demo.F"
                 (Attr Self "z");
      mkFunction "y" "method" [Some "builtins.property"] "demo.G"
                 (Attr (Attr Self "back") "x") ]
    [("object", ClassDef 0)].

Definition W : World := world program 3.
Definition gens : Generators := generators program 3.

Definition object_ : node := ClassDef 0.
Definition A : node := ClassDef 1.
Definition B : node := ClassDef 2.
Definition C : node := ClassDef 3.
Definition D : node := ClassDef 4.
Definition E : node := ClassDef 5.
Definition F : node := ClassDef 6.
Definition G : node := ClassDef 7.

(** [super(D, C())] where [D] is not in the MRO of [C]. *)
Definition malformed_super : node :=
  Super D (Instance C) C (FunctionDef 0) false.

(** The context [bool_value] makes for itself in an empty store. *)
Definition bool_ctx (self : node) : InferenceContext :=
  set_callcontext (mkContext 0 None None) [self].

(** A context whose visited set is the first cell of the store. *)
Definition ctx : InferenceContext := mkContext 0 None None.

End Demo.

(** ** A second program, for the facts about the rest of the module

    <<
    class Box(object):               # class 1; object is class 0
        __class__ = 0
        def __getitem__(self, i): return 42     # function 0
        @functools.cached_property
        def size(self): return 3                # function 1
        @mymod.property
        def shadow(self): return 4              # function 2
        def __new__(cls): return cls            # function 4
    class Crate(Box):                # class 2
        def __getitem__(self, i): return 7      # function 3
    class Pallet(Crate): pass        # class 3
    class Flag(object):              # class 4
        def __bool__(self): return 1            # function 6
        def __len__(self): return 0             # function 7
    >>
    and [object.__new__] (function 5). *)
Module Shop.
Import Chains.

Definition program : table :=
  mkTable
    [ mkClass [0] true [("__new__", DFunction 5)] [];
      mkClass [1; 0] true
        [("__class__", DConst 0); ("__getitem__", DFunction 0);
         ("size", DFunction 1); ("shadow", DFunction 2);
         ("__new__", DFunction 4)] [];
      mkClass [2; 1; 0] true [("__getitem__", DFunction 3)] [];
      mkClass [3; 2; 1; 0] true [] [];
      mkClass [4; 0] true
        [("__bool__", DFunction 6); ("__len__", DFunction 7)] [] ]
    [ mkFunction "__getitem__" "method" [] "shop.Box" (Const (DConst 42));
      mkFunction "size" "method" [Some "functools.cached_property"] "shop.Box"
                 (Const (DConst 3));
      mkFunction "shadow" "method" [Some "mymod.property"] "shop.Box"
                 (Const (DConst 4));
      mkFunction "__getitem__" "method" [] "shop.Crate" (Const (DConst 7));
      mkFunction "__new__" "method" [] "shop.Box" Self;
      mkFunction "__new__" "method" [] "builtins.object" Self;
      mkFunction "__bool__" "method" [] "shop.Flag" (Const (DConst 1));
      mkFunction "__len__" "method" [] "shop.Flag" (Const (DConst 0)) ]
    [("object", ClassDef 0)].

Definition W : World := world program 3.
Definition gens : Generators := generators program 3.

Definition object_ : node := ClassDef 0.
Definition Box : node := ClassDef 1.
Definition Crate : node := ClassDef 2.
Definition Pallet : node := ClassDef 3.
Definition Flag : node := ClassDef 4.

Definition ctx : InferenceContext := mkContext 0 None None.

(** The world [W0] in which the call node [Other 100] is [f(Box)]: its
    arguments are the class [Box]. *)
Definition with_call (W0 : World) : World :=
  {| py3 := py3 W0;
     Uninferable_truth := Uninferable_truth W0;
     instance_attr := instance_attr W0;
     class_getattr := class_getattr W0;
     class_igetattr := class_igetattr W0;
     newstyle := newstyle W0;
     mro := mro W0;
     locals := locals W0;
     special_attributes := special_attributes W0;
     infer_stmts := infer_stmts W0;
     decoratornames := decoratornames W0;
     node_type := node_type W0;
     node_name := node_name W0;
     parent_frame_qname := parent_frame_qname W0;
     statement_scope_is_class := statement_scope_is_class W0;
     first_arg_name := first_arg_name W0;
     caller_args := fun x => match x with
                             | Other 100 => [Box]
                             | _ => caller_args W0 x
                             end;
     node_infer := node_infer W0;
     node_infer_call_result := node_infer_call_result W0;
     has_infer_call_result := has_infer_call_result W0;
     node_callable := node_callable W0;
     node_bool_value := node_bool_value W0;
     builtin := builtin W0 |}.

Definition call : node := Other 100.

(** The world [W0] in which asking a tree node for its truth value fails
    with an error that is not an inference error. *)
Definition with_failing_truth (W0 : World) : World :=
  {| py3 := py3 W0;
     Uninferable_truth := Uninferable_truth W0;
     instance_attr := instance_attr W0;
     class_getattr := class_getattr W0;
     class_igetattr := class_igetattr W0;
     newstyle := newstyle W0;
     mro := mro W0;
     locals := locals W0;
     special_attributes := special_attributes W0;
     infer_stmts := infer_stmts W0;
     decoratornames := decoratornames W0;
     node_type := node_type W0;
     node_name := node_name W0;
     parent_frame_qname := parent_frame_qname W0;
     statement_scope_is_class := statement_scope_is_class W0;
     first_arg_name := first_arg_name W0;
     caller_args := caller_args W0;
     node_infer := node_infer W0;
     node_infer_call_result := node_infer_call_result W0;
     has_infer_call_result := has_infer_call_result W0;
     node_callable := node_callable W0;
     node_bool_value := fun _ => ret (Raise AttributeError);
     builtin := builtin W0 |}.

(** The world [W0] in which [Lambda 1] is [lambda self: ...] written in a
    class body, [Lambda 2] is [lambda x: ...] written there too, and
    [Lambda 3] is [lambda self: ...] written in a function. *)
Definition with_class_lambdas (W0 : World) : World :=
  {| py3 := py3 W0;
     Uninferable_truth := Uninferable_truth W0;
     instance_attr := instance_attr W0;
     class_getattr := class_getattr W0;
     class_igetattr := class_igetattr W0;
     newstyle := newstyle W0;
     mro := mro W0;
     locals := locals W0;
     special_attributes := special_attributes W0;
     infer_stmts := infer_stmts W0;
     decoratornames := decoratornames W0;
     node_type := node_type W0;
     node_name := node_name W0;
     parent_frame_qname := parent_frame_qname W0;
     statement_scope_is_class := fun x => match x with
                                          | Lambda 1 | Lambda 2 => true
                                          | _ => statement_scope_is_class W0 x
                                          end;
     first_arg_name := fun x => match x with
                                | Lambda 1 | Lambda 3 => Some "self"
                                | Lambda 2 => Some "x"
                                | _ => first_arg_name W0 x
                                end;
     caller_args := caller_args W0;
     node_infer := node_infer W0;
     node_infer_call_result := node_infer_call_result W0;
     has_infer_call_result := has_infer_call_result W0;
     node_callable := node_callable W0;
     node_bool_value := node_bool_value W0;
     builtin := builtin W0 |}.

End Shop.

(** ** A third program, for the lookups that are not run to their end

    <<
    class Base(object):                          # class 1; object is class 0
        @property
        def __len__(self): return self.n         # function 0
        @property
        def __getitem__(self): return self.m     # function 1
    class Seq(Base):                             # class 2
        n = 0
        m = 9
        def __len__(self): return self.n         # function 2
        def __getitem__(self, i): return self.m  # function 3
    >>
    The class hands out two candidates for [__len__] and for [__getitem__];
    re-wrapping the second one calls the property, whose lookup of [n] (of
    [m]) is recorded in the visited set of the context. *)
Module Seqs.
Import Chains.

Definition program : table :=
  mkTable
    [ mkClass [0] true [] [];
      mkClass [1; 0] true
        [("__len__", DFunction 0); ("__getitem__", DFunction 1)] [];
      mkClass [2; 1; 0] true
        [("n", DConst 0); ("m", DConst 9);
         ("__len__", DFunction 2); ("__getitem__", DFunction 3)] [] ]
    [ mkFunction "__len__" "method" [Some "builtins.property"] "seqs.Base"
                 (Attr Self "n");
      mkFunction "__getitem__" "method" [Some "builtins.property"] "seqs.Base"
                 (Attr Self "m");
      mkFunction "__len__" "method" [] "seqs.Seq" (Attr Self "n");
      mkFunction "__getitem__" "method" [] "seqs.Seq" (Attr Self "m") ]
    [("object", ClassDef 0)].

Definition W : World := world program 4.
Definition gens : Generators := generators program 4.

Definition Base : node := ClassDef 1.
Definition Seq : node := ClassDef 2.

Definition ctx : InferenceContext := mkContext 0 None None.

End Seqs.

(** ** BaseInstance.getattr *)

Section GetattrFacts.

Variable W : World.

(** C1.  For a class [c] that declares the name both at instance level
    ([instance_attr] succeeds with [ivalues]) and at class level (the class's
    [getattr] succeeds with [cvalues]), [Instance(c).getattr(name, context,
    lookupclass=True)] returns the instance-level candidates followed by the
    class-level candidates. *)
Theorem getattr_instance_then_class :
  forall (c : node) (name : string) (context : option InferenceContext)
         (ivalues cvalues : list node),
    instance_attr W c name context = Ok ivalues ->
    class_getattr W c name context false = Ok cvalues ->
    BaseInstance_getattr W (Instance c) name context true
    = Ok (ivalues ++ cvalues).
Proof.
  intros c name context ivalues cvalues Hi Hc.
  unfold BaseInstance_getattr, proxied.
  rewrite Hi, Hc. reflexivity.
Qed.

(** C10.  With [lookupclass=True], when the instance-level lookup succeeds and
    the class-level lookup raises [AttributeInferenceError], the error is
    swallowed and exactly the instance-level values are returned. *)
Theorem getattr_class_miss_is_swallowed :
  forall (c : node) (name : string) (context : option InferenceContext)
         (ivalues : list node) (i : exc_info),
    instance_attr W c name context = Ok ivalues ->
    class_getattr W c name context false = Raise (AttributeInferenceError i) ->
    BaseInstance_getattr W (Instance c) name context true = Ok ivalues.
Proof.
  intros c name context ivalues i Hi Hc.
  unfold BaseInstance_getattr, proxied.
  rewrite Hi, Hc. reflexivity.
Qed.

End GetattrFacts.

Lemma getattr_instance_then_class_witness :
  BaseInstance_getattr Demo.W (Instance Demo.A) "n" None true
  = Ok ([Other 7] ++ [Other 3]).
Proof.
  apply (getattr_instance_then_class Demo.W Demo.A "n" None [Other 7] [Other 3]);
    reflexivity.
Defined.

Lemma getattr_class_miss_is_swallowed_witness :
  BaseInstance_getattr Demo.W (Instance Demo.A) "only" None true = Ok [Other 9].
Proof.
  apply (getattr_class_miss_is_swallowed Demo.W Demo.A "only" None [Other 9]
           (mkInfo None (Some Demo.A) (Some "only") None None None None None None));
    reflexivity.
Defined.

(** ** Identity of nodes *)

Lemma node_eqb_refl : forall x, node_eqb x x = true.
Proof.
  induction x; simpl; auto using Nat.eqb_refl.
  - now rewrite IHx1, IHx2.
  - rewrite IHx1, IHx2, IHx3, IHx4. simpl. apply Bool.eqb_reflx.
Qed.

Lemma node_eqb_eq : forall x y, node_eqb x y = true -> x = y.
Proof.
  induction x; destruct y; simpl; intro H; try discriminate; auto;
    try (apply Nat.eqb_eq in H; now subst);
    try (f_equal; now auto).
  - apply andb_true_iff in H. destruct H as [H1 H2].
    f_equal; auto.
  - repeat (apply andb_true_iff in H; destruct H as [H ?]).
    f_equal; auto. now apply Bool.eqb_prop.
Qed.

Lemma mem_node_app : forall x l1 l2,
  mem_node x (l1 ++ l2) = mem_node x l1 || mem_node x l2.
Proof. intros. unfold mem_node. apply existsb_app. Qed.

Lemma node_eqb_sym : forall x y, node_eqb x y = node_eqb y x.
Proof.
  intros x y. destruct (node_eqb x y) eqn:E.
  - apply node_eqb_eq in E. subst. symmetry. apply node_eqb_refl.
  - destruct (node_eqb y x) eqn:E'; auto.
    apply node_eqb_eq in E'. subst. now rewrite node_eqb_refl in E.
Qed.

Lemma index_of_first : forall x pre post,
  mem_node x pre = false -> index_of x (pre ++ x :: post) = List.length pre.
Proof.
  induction pre as [|h t IH]; simpl; intros post H.
  - now rewrite node_eqb_refl.
  - apply orb_false_iff in H. destruct H as [H1 H2].
    rewrite node_eqb_sym, H1. f_equal. now apply IH.
Qed.

Lemma skipn_after : forall (pre post : list node) x,
  skipn (List.length pre + 1) (pre ++ x :: post) = post.
Proof.
  induction pre; simpl; intros; auto.
Qed.

(** ** Super.super_mro *)

Section SuperMroFacts.

Variable W : World.

Lemma super_mro_resolved : forall p t sc scope cb target self',
  is_ClassDef p = true ->
  resolves_to W p t sc scope cb target self' ->
  Super_super_mro W (Super p t sc scope cb)
  = if negb (newstyle W (forwarded target)) then
      (Raise (super_error "Unable to call super on old-style classes." self'),
       self')
    else
      match mro W (forwarded target) with
      | Raise e => (Raise e, self')
      | Ok m =>
          if negb (mem_node p m) then
            (Raise (super_error second_argument_message self'), self')
          else (Ok (skipn (index_of p m + 1) m), self')
      end.
Proof.
  intros p t sc scope cb target self' Hp Hres. simpl. rewrite Hp. simpl.
  destruct Hres as [(Ht & -> & ->) | (Ht & Hq & Hi & ->)].
  - now rewrite Ht.
  - now rewrite Ht, Hq, Hi.
Qed.

(** C3.  [super_mro] checks, in this order, that [mro_pointer] is a class,
    that [type] is a class or proxies an instance or a class, that the target
    is new-style and that [mro_pointer] is in the target's MRO; the first
    check that fails raises [SuperError].  When all hold it returns the part
    of the MRO strictly after the first position of [mro_pointer]; for a
    chain with MRO [C, B, A, object], the super of [B] on an instance of [C]
    gets [A, object]. *)
Theorem super_mro_checks_then_slices :
  forall (p t sc scope : node) (cb : bool),
    let self := Super p t sc scope cb in
    (is_ClassDef p = false ->
     Super_super_mro W self
     = (Raise (super_error
          "The first argument to super must be a subtype of type, not {mro_pointer}."
          self), self))
    /\ (is_ClassDef p = true -> is_ClassDef t = false ->
        (forall q, proxied W t = Some q -> is_Instance q || is_ClassDef q = false) ->
        Super_super_mro W self
        = (Raise (super_error second_argument_message self), self))
    /\ (forall target self',
          is_ClassDef p = true ->
          resolves_to W p t sc scope cb target self' ->
          (newstyle W (forwarded target) = false ->
           Super_super_mro W self
           = (Raise (super_error "Unable to call super on old-style classes." self'),
              self'))
          /\ (forall m,
                newstyle W (forwarded target) = true ->
                mro W (forwarded target) = Ok m ->
                (mem_node p m = false ->
                 Super_super_mro W self
                 = (Raise (super_error second_argument_message self'), self'))
                /\ (forall pre post,
                      m = pre ++ p :: post -> mem_node p pre = false ->
                      Super_super_mro W self = (Ok post, self'))))
    /\ (forall c b a o : nat,
          c <> b ->
          newstyle W (ClassDef c) = true ->
          mro W (ClassDef c)
          = Ok [ClassDef c; ClassDef b; ClassDef a; ClassDef o] ->
          fst (Super_super_mro W (Super (ClassDef b) (Instance (ClassDef c))
                                        sc scope cb))
          = Ok [ClassDef a; ClassDef o]).
Proof.
  intros p t sc scope cb self. split; [|split; [|split]].
  - intro Hp. unfold self. simpl. now rewrite Hp.
  - intros Hp Ht Hq. unfold self. simpl. rewrite Hp, Ht. simpl.
    destruct (proxied W t) as [q|] eqn:E; auto.
    now rewrite (Hq q eq_refl).
  - intros target self' Hp Hres.
    unfold self. rewrite (super_mro_resolved _ _ _ _ _ _ _ Hp Hres). split.
    + intro Hn. now rewrite Hn.
    + intros m Hn Hm. rewrite Hn, Hm. simpl. split.
      * intro Hmem. now rewrite Hmem.
      * intros pre post -> Hpre.
        rewrite mem_node_app. simpl. rewrite node_eqb_refl, orb_true_r. simpl.
        now rewrite index_of_first, skipn_after.
  - intros c b a o Hcb Hn Hm. simpl. rewrite Hn. simpl. rewrite Hm.
    assert (E : Nat.eqb b c = false) by (apply Nat.eqb_neq; congruence).
    assert (E' : Nat.eqb c b = false) by (now apply Nat.eqb_neq).
    simpl. rewrite E, E', !Nat.eqb_refl. reflexivity.
Qed.

End SuperMroFacts.

Lemma super_mro_checks_then_slices_witness :
  fst (Super_super_mro Demo.W
         (Super Demo.B (Instance Demo.C) Demo.C (FunctionDef 0) false))
  = Ok [Demo.A; Demo.object_].
Proof.
  apply (proj2 (proj2 (proj2
           (super_mro_checks_then_slices Demo.W Demo.B (Instance Demo.C) Demo.C
              (FunctionDef 0) false))) 3 2 1 0).
  - discriminate.
  - reflexivity.
  - reflexivity.
Defined.

(** ** Method variants *)

Section MethodFacts.

Variable W : World.

(** C8.  Calling [BoundMethod(F, bound=X)] is calling [UnboundMethod(F)] with
    the caller's context in which [boundnode] is [X]: the context of the call
    has the visited set and the call arguments of the caller's and [X] as its
    [boundnode], whatever the caller's [boundnode] was; so it is the call with
    the context itself when its [boundnode] is [X] already, and the call with
    a new context whose [boundnode] is [X] when none is given.  The same holds
    for the generators the two calls return, run to their first value or to
    their end. *)
Theorem bound_method_call_is_unbound_call_with_boundnode :
  forall (F X caller : node),
    (forall (visited_at : nat) (args : option (list node)) (bn : option node),
        infer_call_result W (BoundMethod F X) caller
          (Some (mkContext visited_at args bn))
        = infer_call_result W (UnboundMethod F) caller
            (Some (mkContext visited_at args (Some X))))
    /\ (forall context : InferenceContext,
          boundnode context = Some X ->
          infer_call_result W (BoundMethod F X) caller (Some context)
          = infer_call_result W (UnboundMethod F) caller (Some context))
    /\ (forall s : store,
          infer_call_result W (BoundMethod F X) caller None s
          = infer_call_result W (UnboundMethod F) caller
              (Some (mkContext (List.length s) None (Some X))) (s ++ [[]]))
    /\ (forall (G : Generators) (visited_at : nat) (args : option (list node))
               (bn : option node) (s : store),
          first_value
            (infer_call_result_gen W G (BoundMethod F X) caller
               (Some (mkContext visited_at args bn))) s
          = first_value
              (infer_call_result_gen W G (UnboundMethod F) caller
                 (Some (mkContext visited_at args (Some X)))) s
          /\ exhaust
               (infer_call_result_gen W G (BoundMethod F X) caller
                  (Some (mkContext visited_at args bn))) s
             = exhaust
                 (infer_call_result_gen W G (UnboundMethod F) caller
                    (Some (mkContext visited_at args (Some X)))) s).
Proof.
  intros F X caller. split; [|split; [|split]].
  - intros visited_at args bn. reflexivity.
  - intros [r cc bn] Hb. simpl in Hb. subst bn. reflexivity.
  - intro s. reflexivity.
  - intros G visited_at args bn s. split; reflexivity.
Qed.

End MethodFacts.

Lemma bound_method_call_is_unbound_call_with_boundnode_witness :
  infer_call_result Shop.W (BoundMethod (FunctionDef 4) (Instance Shop.Box))
    (Other 0) (Some (mkContext 0 None (Some (Instance Shop.Box))))
  = infer_call_result Shop.W (UnboundMethod (FunctionDef 4))
      (Other 0) (Some (mkContext 0 None (Some (Instance Shop.Box)))).
Proof.
  apply (proj1 (proj2 (bound_method_call_is_unbound_call_with_boundnode Shop.W
                         (FunctionDef 4) (Instance Shop.Box) (Other 0)))).
  reflexivity.
Defined.

(** The function [__new__] of [Box] returns its receiver: called through the
    bound method in a context without [boundnode] it gives the bound
    instance, where the unbound method in that same context gives the caller. *)
Example bound_receiver_reaches_the_function :
  infer_call_result Shop.W (BoundMethod (FunctionDef 4) (Instance Shop.Box))
    (Other 0) (Some Shop.ctx) [[]]
  = Some (gen_of_list [Instance Shop.Box], [[]])
  /\ infer_call_result Shop.W (UnboundMethod (FunctionDef 4))
       (Other 0) (Some Shop.ctx) [[]]
     = Some (gen_of_list [Other 0], [[]])
  /\ infer_call_result Shop.W (BoundMethod (FunctionDef 4) (Instance Shop.Box))
       (Other 0) None []
     = Some (gen_of_list [Instance Shop.Box], [[]]).
Proof. repeat split. Qed.

(** ** Dotted names *)

Lemma split_dot_nonempty : forall s, split_dot s <> [].
Proof.
  induction s as [|c r IH]; simpl; [discriminate|].
  destruct (Ascii.eqb c "."); [discriminate|].
  destruct (split_dot r); [contradiction | discriminate].
Qed.

Lemma split_dot_append : forall q n,
  split_dot (String.append q (String "." n)) = split_dot q ++ split_dot n.
Proof.
  induction q as [|c r IH]; intro n; simpl.
  - reflexivity.
  - destruct (Ascii.eqb c ".").
    + now rewrite IH.
    + rewrite IH. pose proof (split_dot_nonempty r) as Hr.
      destruct (split_dot r); [contradiction | reflexivity].
Qed.

Lemma last_app_nonempty : forall (l1 l2 : list string) d,
  l2 <> [] -> last (l1 ++ l2) d = last l2 d.
Proof.
  induction l1 as [|x l1 IH]; intros l2 d H; simpl; auto.
  destruct (l1 ++ l2) eqn:E.
  - destruct l1; [simpl in E; contradiction | discriminate].
  - rewrite <- E. now apply IH.
Qed.

Lemma last_component_qualified : forall q n,
  last_component (String.append q (String "." n)) = last_component n.
Proof.
  intros q n. unfold last_component. rewrite split_dot_append.
  apply last_app_nonempty, split_dot_nonempty.
Qed.

Lemma POSSIBLE_PROPERTIES_plain : forall p,
  In p POSSIBLE_PROPERTIES -> last_component p = p.
Proof.
  intros p H. unfold POSSIBLE_PROPERTIES in H. simpl in H.
  repeat (destruct H as [<- | H]; [vm_compute; reflexivity|]).
  contradiction.
Qed.



(** ** Property detection and re-wrapping *)

Lemma mem_string_In : forall x l, mem_string x l = true <-> In x l.
Proof.
  intros x l. unfold mem_string. rewrite existsb_exists. split.
  - intros (y & Hy & E). apply String.eqb_eq in E. now subst.
  - intro H. exists x. split; auto. apply String.eqb_refl.
Qed.

Lemma inferable_names_In : forall n l, In n (inferable_names l) <-> In (Some n) l.
Proof.
  induction l as [|[m|] t IH]; simpl.
  - tauto.
  - rewrite IH. split; intros [H|H]; auto; left; congruence.
  - rewrite IH. split; [auto | intros [H|H]; [discriminate | auto]].
Qed.

Section PropertyFacts.

Variable W : World.

Lemma is_property_spec : forall f,
  is_property W f = true <->
  (exists n, In n (PROPERTIES W) /\ In (Some n) (decoratornames W f))
  \/ (exists p d, In p POSSIBLE_PROPERTIES /\ In (Some d) (decoratornames W f)
                  /\ last_component d = p).
Proof.
  intro f. unfold is_property.
  destruct (existsb _ (PROPERTIES W)) eqn:E.
  - split; auto. intros _. left.
    apply existsb_exists in E. destruct E as (n & Hn & Hm).
    exists n. split; auto.
    now apply inferable_names_In, mem_string_In.
  - split.
    + intro H. right. apply existsb_exists in H. destruct H as (p & Hp & Hm).
      apply mem_string_In, in_map_iff in Hm. destruct Hm as (d & Hd & Hin).
      exists p, d. repeat split; auto. now apply inferable_names_In.
    + intros [(n & Hn & Hd) | (p & d & Hp & Hd & Hl)].
      * assert (existsb
                  (fun p => mem_string p (inferable_names (decoratornames W f)))
                  (PROPERTIES W) = true) as E'.
        { apply existsb_exists. exists n. split; auto.
          now apply mem_string_In, inferable_names_In. }
        congruence.
      * apply existsb_exists. exists p. split; auto.
        apply mem_string_In, in_map_iff. exists d. split; auto.
        now apply inferable_names_In.
Qed.

End PropertyFacts.

(** ** BaseInstance.igetattr *)

Section IgetattrFacts.

Variable W : World.

Lemma igetattr_seen : forall self p name ctx s,
  proxied W self = Some p ->
  mem_key (p, name) (visited s ctx) = true ->
  BaseInstance_igetattr W self name (Some ctx) s = Some (gen_empty, s).
Proof.
  intros self p name ctx s Hp Hm.
  unfold BaseInstance_igetattr, bind, context_or_new, ret, push.
  now rewrite Hp, Hm.
Qed.

Lemma igetattr_unseen : forall self p name ctx s,
  proxied W self = Some p ->
  mem_key (p, name) (visited s ctx) = false ->
  BaseInstance_igetattr W self name (Some ctx) s
  = (first <- igetattr_instance_path W self name ctx ;;
     match snd first with
     | Some (AttributeInferenceError _) =>
         second <- igetattr_class_path W self p name ctx ;;
         ret (gen_prepend (fst first) second)
     | _ => ret first
     end) (record_visit ctx (p, name) s).
Proof.
  intros self p name ctx s Hp Hm.
  unfold BaseInstance_igetattr at 1. unfold bind at 1. unfold context_or_new, ret at 1.
  rewrite Hp. unfold bind at 1. unfold push. now rewrite Hm.
Qed.

(** When the instance-level lookup misses, [igetattr] is the class path run
    after the guard recorded the pair. *)
Lemma igetattr_instance_miss : forall self p name ctx s i,
  proxied W self = Some p ->
  mem_key (p, name) (visited s ctx) = false ->
  BaseInstance_getattr W self name (Some ctx) false
  = Raise (AttributeInferenceError i) ->
  BaseInstance_igetattr W self name (Some ctx) s
  = igetattr_class_path W self p name ctx (record_visit ctx (p, name) s).
Proof.
  intros self p name ctx s i Hp Hm Hg.
  rewrite (igetattr_unseen _ _ _ _ _ Hp Hm).
  unfold bind at 1. unfold igetattr_instance_path. rewrite Hg.
  unfold ret at 1, gen_raise. cbn [snd fst].
  unfold bind. destruct (igetattr_class_path W self p name ctx _) as [[[v e] s']|];
    reflexivity.
Qed.

Lemma wrap_attr_single : forall self attr context s,
  _wrap_attr W self (gen_of_list [attr]) context s
  = _wrap_attr_body W self context attr s.
Proof.
  intros self attr context s. unfold _wrap_attr, for_each. simpl.
  unfold bind, ret.
  destruct (_wrap_attr_body W self context attr s) as [[[v [e|]] s']|];
    cbn [fst snd]; try reflexivity.
  unfold gen_prepend. cbn [fst snd]. now rewrite app_nil_r.
Qed.

Lemma wrap_attr_nil : forall self tail context s,
  _wrap_attr W self ([], tail) context s = Some (([], tail), s).
Proof. reflexivity. Qed.

(** [_wrap_attr] on a list of attributes: the body runs on the first; an
    exception it raises ends the generator, otherwise the rest is re-wrapped
    after it. *)
Lemma wrap_attr_cons : forall self attr rest tail context s,
  _wrap_attr W self (attr :: rest, tail) context s
  = match _wrap_attr_body W self context attr s with
    | Some ((values, None), s1) =>
        match _wrap_attr W self (rest, tail) context s1 with
        | Some (r, s2) => Some ((values ++ fst r, snd r), s2)
        | None => None
        end
    | other => other
    end.
Proof.
  intros self attr rest tail context s. unfold _wrap_attr, for_each.
  cbn [fst snd for_list]. unfold bind at 1.
  destruct (_wrap_attr_body W self context attr s) as [[[values [e|]] s1]|];
    cbn [snd fst]; reflexivity.
Qed.


End IgetattrFacts.


Section UndeclaredFacts.

Variable W : World.

(** C9.  For a name that neither the instance-level lookup nor the special
    attributes provide, [Instance(c).getattr(name, lookupclass=False)] raises
    [AttributeInferenceError]; when the class's [igetattr] finds nothing
    either, [Instance(c).igetattr(name)] yields no value and raises
    [InferenceError], built from the class's error, once both paths have
    been tried, and just yields nothing when the guard stops it first. *)
Theorem undeclared_name_is_an_error :
  forall (c : node) (name : string) (ctx : InferenceContext) (s s2 : store)
         (i e : exc_info),
    instance_attr W c name (Some ctx) = Raise (AttributeInferenceError i) ->
    special_lookup W (Instance c) name = None ->
    class_igetattr W c name (Some ctx) false (record_visit ctx (c, name) s)
    = Some (gen_raise (AttributeInferenceError e), s2) ->
    BaseInstance_getattr W (Instance c) name (Some ctx) false
    = Raise (AttributeInferenceError
               (mkInfo None (Some (Instance c)) (Some name) (Some ctx)
                       None None None None None))
    /\ (mem_key (c, name) (visited s ctx) = false ->
        BaseInstance_igetattr W (Instance c) name (Some ctx) s
        = Some (([], Some (InferenceError e)), s2))
    /\ (mem_key (c, name) (visited s ctx) = true ->
        BaseInstance_igetattr W (Instance c) name (Some ctx) s
        = Some (([], None), s)).
Proof.
  intros c name ctx s s2 i e Hi Hs Hc.
  assert (Hg : BaseInstance_getattr W (Instance c) name (Some ctx) false
               = Raise (AttributeInferenceError
                          (mkInfo None (Some (Instance c)) (Some name) (Some ctx)
                                  None None None None None))).
  { unfold BaseInstance_getattr, proxied. now rewrite Hi, Hs. }
  split; [exact Hg|]. split.
  - intro Hm.
    rewrite (igetattr_instance_miss W (Instance c) c name ctx s _ eq_refl Hm Hg).
    unfold igetattr_class_path, bind. rewrite Hc. reflexivity.
  - intro Hm. now apply (igetattr_seen W (Instance c) c).
Qed.

End UndeclaredFacts.

Lemma undeclared_name_is_an_error_witness :
  BaseInstance_igetattr Demo.W (Instance Demo.A) "nope" (Some Demo.ctx) [[]]
  = Some (([], Some (InferenceError
                       (mkInfo None (Some Demo.A) (Some "nope") (Some Demo.ctx)
                               None None None None None))),
          [[(Demo.A, "nope")]]).
Proof.
  apply (proj1 (proj2
           (undeclared_name_is_an_error Demo.W Demo.A "nope" Demo.ctx [[]]
              [[(Demo.A, "nope")]]
              (mkInfo None (Some Demo.A) (Some "nope") (Some Demo.ctx)
                      None None None None None)
              (mkInfo None (Some Demo.A) (Some "nope") (Some Demo.ctx)
                      None None None None None)
              eq_refl eq_refl eq_refl))).
  reflexivity.
Defined.

(** ** Super.igetattr *)

Section SuperIgetattrFacts.

Variable W : World.

Lemma walk_absent : forall self name ctx l found s,
  (forall c, In c l -> locals W c name = None) ->
  Super_igetattr_walk W self name ctx l found s
  = Super_igetattr_walk W self name ctx [] found s.
Proof.
  intros self name ctx l found s. induction l as [|c l IH]; intro H; auto.
  simpl. rewrite (H c (or_introl eq_refl)).
  apply IH. intros c' Hc'. apply H. now right.
Qed.

Lemma walk_skip : forall self name ctx pre l found s,
  (forall c, In c pre -> locals W c name = None) ->
  Super_igetattr_walk W self name ctx (pre ++ l) found s
  = Super_igetattr_walk W self name ctx l found s.
Proof.
  intros self name ctx pre l found s. induction pre as [|c pre IH]; intro H; auto.
  simpl. rewrite (H c (or_introl eq_refl)).
  apply IH. intros c' Hc'. apply H. now right.
Qed.

(** When the name is declared in exactly one class of the MRO and infers to
    one value, [igetattr] is the loop body run on that value. *)
Lemma Super_igetattr_found :
  forall self self' cls pre rest name ctx stmt inferred s s1,
    special_lookup W self name = None ->
    Super_super_mro W self = (Ok (pre ++ cls :: rest), self') ->
    (forall c, In c pre \/ In c rest -> locals W c name = None) ->
    locals W cls name = Some stmt ->
    infer_stmts W (gen_of_list [stmt]) ctx self' s
    = Some (gen_of_list [inferred], s1) ->
    Super_igetattr W self name ctx s
    = Super_igetattr_inferred W self' cls ctx inferred s1.
Proof.
  intros self self' cls pre rest name ctx stmt inferred s s1 Hs Hm Habs Hl Hi.
  unfold Super_igetattr. rewrite Hs, Hm.
  rewrite walk_skip by (intros c Hc; apply Habs; now left).
  simpl. rewrite Hl. unfold bind at 1. rewrite Hi.
  unfold for_each, gen_of_list. cbn [fst snd for_list].
  unfold bind.
  destruct (Super_igetattr_inferred W self' cls ctx inferred s1)
    as [[[v [e|]] s2]|]; cbn [fst snd ret]; try reflexivity.
  unfold ret at 1. cbn [fst snd gen_prepend].
  rewrite walk_absent by (intros c Hc; apply Habs; now right).
  simpl. unfold ret, gen_prepend, gen_empty. cbn [fst snd].
  now rewrite !app_nil_r.
Qed.



Lemma assoc_first : forall name (pre post : list (string * node)) v,
  (forall k w, In (k, w) pre -> k <> name) ->
  assoc name (pre ++ (name, v) :: post) = Some v.
Proof.
  intros name pre post v. induction pre as [|[k w] pre IH]; intro H; simpl.
  - now rewrite String.eqb_refl.
  - destruct (String.eqb name k) eqn:E.
    + apply String.eqb_eq in E. subst k.
      now destruct (H name w (or_introl eq_refl)).
    + apply IH. intros k' w' Hin. apply (H k' w'). now right.
Qed.

Lemma assoc_absent : forall name (table : list (string * node)),
  (forall v, ~ In (name, v) table) -> assoc name table = None.
Proof.
  intros name table. induction table as [|[k w] table IH]; intro H; simpl.
  - reflexivity.
  - destruct (String.eqb name k) eqn:E.
    + apply String.eqb_eq in E. subst k.
      now destruct (H w (or_introl eq_refl)).
    + apply IH. intros v Hin. apply (H v). now right.
Qed.

(** C5, as the code has it.  A name that is one of the super object's
    special attributes is answered from their table, whatever [super_mro]
    would say.  For any other name, a [SuperError] or [MroError] of
    [super_mro] leaves [igetattr] as an [AttributeInferenceError] that carries
    what the original error carried, the super object of the one, the MROs and
    the class of the other; in particular when [mro_pointer] is not in the
    MRO of the target.  For no name does a [SuperError] or [MroError] of
    [super_mro] leave [igetattr]. *)
Theorem super_igetattr_converts_errors :
  forall (self : node) (name : string) (ctx : option InferenceContext)
         (s : store),
    (forall pre post v,
        special_attributes W self = Some (pre ++ (name, v) :: post) ->
        (forall k w, In (k, w) pre -> k <> name) ->
        Super_igetattr W self name ctx s = Some (([v], None), s))
    /\ ((forall table, special_attributes W self = Some table ->
                       forall v, ~ In (name, v) table) ->
        (forall i self',
            Super_super_mro W self = (Raise (SuperError i), self') ->
            Super_igetattr W self name ctx s
            = Some (([], Some (AttributeInferenceError
                      (mkInfo (Some invalid_super_message) (Some self')
                              (Some name) ctx (super_ i) None None None None))),
                    s))
        /\ (forall i self',
              Super_super_mro W self = (Raise (MroError i), self') ->
              Super_igetattr W self name ctx s
              = Some (([], Some (AttributeInferenceError
                        (mkInfo (Some invalid_mro_message) (Some self')
                                (Some name) ctx None (mros i) (cls i) None None))),
                      s))
        /\ (forall p t sc scope cb target self' m,
              self = Super p t sc scope cb ->
              is_ClassDef p = true ->
              resolves_to W p t sc scope cb target self' ->
              newstyle W (forwarded target) = true ->
              mro W (forwarded target) = Ok m ->
              ~ In p m ->
              Super_igetattr W self name ctx s
              = Some (([], Some (AttributeInferenceError
                        (mkInfo (Some invalid_super_message) (Some self')
                                (Some name) ctx (Some self') None None None None))),
                      s)))
    /\ (forall e self',
          Super_super_mro W self = (Raise e, self') ->
          (exists i, e = SuperError i) \/ (exists i, e = MroError i) ->
          exists g,
            Super_igetattr W self name ctx s = Some (g, s)
            /\ (forall i, snd g <> Some (SuperError i))
            /\ (forall i, snd g <> Some (MroError i))).
Proof.
  intros self name ctx s. split; [|split].
  - intros pre post v Ht Hpre. unfold Super_igetattr, special_lookup.
    now rewrite Ht, (assoc_first name pre post v Hpre).
  - intro Habs.
    assert (Hs : special_lookup W self name = None).
    { unfold special_lookup.
      destruct (special_attributes W self) as [table|] eqn:Et; [|reflexivity].
      apply assoc_absent. now apply Habs. }
    split; [|split].
    + intros i self' H. unfold Super_igetattr. now rewrite Hs, H.
    + intros i self' H. unfold Super_igetattr. now rewrite Hs, H.
    + intros p t sc scope cb target self' m -> Hp Hres Hn Hm Hmem.
      assert (Hmem' : mem_node p m = false).
      { destruct (mem_node p m) eqn:E; [|reflexivity].
        exfalso. apply Hmem. unfold mem_node in E.
        apply existsb_exists in E. destruct E as (x & Hx & E).
        apply node_eqb_eq in E. now subst x. }
      unfold Super_igetattr. rewrite Hs.
      rewrite (super_mro_resolved W _ _ _ _ _ _ _ Hp Hres).
      now rewrite Hn, Hm, Hmem'.
  - intros e self' Hm He. unfold Super_igetattr. rewrite Hm.
    destruct (special_lookup W self name) as [v|].
    + eexists. split; [reflexivity|]. split; discriminate.
    + destruct He as [(i & ->) | (i & ->)];
        (eexists; split; [reflexivity|]; split; discriminate).
Qed.

End SuperIgetattrFacts.

Lemma super_igetattr_converts_errors_witness :
  Super_igetattr Demo.W Demo.malformed_super "f" None []
  = Some (([], Some (AttributeInferenceError
            (mkInfo (Some invalid_super_message) (Some Demo.malformed_super)
                    (Some "f") None (Some Demo.malformed_super)
                    None None None None))), [])
  /\ Super_igetattr Demo.W Demo.malformed_super "__self_class__" None []
     = Some (([Demo.C], None), []).
Proof.
  split.
  - destruct (super_igetattr_converts_errors Demo.W Demo.malformed_super "f"
                None []) as (_ & H & _).
    destruct H as (_ & _ & H).
    + intros table Ht v Hin. cbv in Ht. injection Ht as <-.
      destruct Hin as [E | [E | []]]; discriminate.
    + apply (H Demo.D (Instance Demo.C) Demo.C (FunctionDef 0) false Demo.C
               Demo.malformed_super
               [Demo.C; Demo.B; Demo.A; Demo.object_]).
      * reflexivity.
      * reflexivity.
      * right. repeat split; reflexivity.
      * reflexivity.
      * reflexivity.
      * intros [E | [E | [E | [E | []]]]]; discriminate.
  - apply (proj1
             (super_igetattr_converts_errors Demo.W Demo.malformed_super
                "__self_class__" None [])
             [("__thisclass__", Demo.D)] [] Demo.C eq_refl).
    intros k w [H | []]. injection H as <- _. discriminate.
Defined.

(** C5, as stated, fails: the malformed super object above answers the lookup
    of its special attribute [__thisclass__] without an error. *)
Lemma malformed_super_special_attribute :
  (exists i, fst (Super_super_mro Demo.W Demo.malformed_super) = Raise (SuperError i))
  /\ Super_igetattr Demo.W Demo.malformed_super "__thisclass__" None []
     = Some (gen_of_list [Demo.D], []).
Proof.
  split.
  - eexists. reflexivity.
  - reflexivity.
Qed.


(** ** The store of visited sets *)

Lemma nth_set_nth : forall (A : Type) (l : list A) n x d,
  n < List.length l -> nth n (set_nth n x l) d = x.
Proof.
  induction l as [|h t IH]; simpl; intros n x d Hn; [lia|].
  destruct n; simpl; auto. apply IH. lia.
Qed.

Lemma length_set_nth : forall (A : Type) (l : list A) n x,
  List.length (set_nth n x l) = List.length l.
Proof.
  induction l as [|h t IH]; intros [|n] x; simpl; auto.
Qed.

Lemma visited_fresh : forall s cc bn,
  visited (s ++ [[]]) (mkContext (List.length s) cc bn) = [].
Proof.
  intros. unfold visited. simpl. rewrite app_nth2 by lia.
  now rewrite Nat.sub_diag.
Qed.

Lemma visited_record : forall s c k,
  path c < List.length s -> visited (record_visit c k s) c = k :: visited s c.
Proof.
  intros s c k H. unfold visited at 1, record_visit. now apply nth_set_nth.
Qed.

(** ** Generators run to their first value *)

Lemma generator_induction : forall (P : generator -> Prop),
  (forall e, P (Stop e)) ->
  (forall v rest, P rest -> P (Yield v rest)) ->
  (forall run,
      (forall s, match run s with Some (g', _) => P g' | None => True end) ->
      P (Step run)) ->
  forall g, P g.
Proof.
  intros P Hstop Hyield Hstep. fix IH 1. intros [e|v rest|run].
  - apply Hstop.
  - apply Hyield, IH.
  - apply Hstep. intro s. destruct (run s) as [[g' s']|]; [apply IH | exact I].
Qed.

(** An exception raised before the first value passes through a loop over the
    generator. *)
Lemma first_value_for_each_raise : forall g body s e s1,
  first_value g s = Some (Raise e, s1) ->
  first_value (for_each_gen g body) s = Some (Raise e, s1).
Proof.
  intros g body. induction g as [[e0|]|v rest IH|run IH] using generator_induction;
    intros s e s1 H; simpl in *; try discriminate; auto.
  specialize (IH s). destruct (run s) as [[g' s']|]; [|discriminate]. auto.
Qed.

(** The first value of a generator under [try]: an exception raised before
    the first value goes to the handler, which runs in the store the
    exception was raised in. *)
Lemma first_value_catch : forall g handler s,
  first_value (catch_gen g handler) s
  = match first_value g s with
    | Some (Raise e, s1) =>
        match handler e with
        | Some h => first_value h s1
        | None => Some (Raise e, s1)
        end
    | r => r
    end.
Proof.
  intros g handler.
  induction g as [[e0|]|v rest IH|run IH] using generator_induction;
    intro s; simpl; try reflexivity.
  - now destruct (handler e0).
  - specialize (IH s). destruct (run s) as [[g' s']|]; [apply IH | reflexivity].
Qed.

(** ** Instance.bool_value *)

Section BoolValueFacts.

Variable W : World.
Variable G : Generators.

(** The first value of [igetattr] when the guard lets the lookup pass. *)
Lemma igetattr_gen_unseen : forall self p name ctx s,
  proxied W self = Some p ->
  mem_key (p, name) (visited s ctx) = false ->
  first_value (BaseInstance_igetattr_gen W G self name (Some ctx)) s
  = first_value
      (catch_gen
         (match BaseInstance_getattr W self name (Some ctx) false with
          | Raise e => Stop (Some e)
          | Ok attrs =>
              infer_stmts_gen G
                (_wrap_attr_gen W G self (yield_list attrs) (Some ctx))
                (Some ctx) self
          end)
         (fun e =>
            match e with
            | AttributeInferenceError _ =>
                Some (catch_gen
                        (_wrap_attr_gen W G self
                           (class_igetattr_gen G p name (Some ctx) false)
                           (Some ctx))
                        (fun error =>
                           match error with
                           | AttributeInferenceError _ =>
                               Some (Stop (Some (InferenceError (vars error))))
                           | _ => None
                           end))
            | _ => None
            end))
      (record_visit ctx (p, name) s).
Proof.
  intros self p name ctx s Hp Hm. unfold BaseInstance_igetattr_gen.
  simpl. rewrite Hp. simpl. unfold push. now rewrite Hm.
Qed.

Lemma igetattr_gen_seen : forall self p name ctx s,
  proxied W self = Some p ->
  mem_key (p, name) (visited s ctx) = true ->
  first_value (BaseInstance_igetattr_gen W G self name (Some ctx)) s
  = Some (Ok None, s).
Proof.
  intros self p name ctx s Hp Hm. unfold BaseInstance_igetattr_gen.
  simpl. rewrite Hp. simpl. unfold push. now rewrite Hm.
Qed.

(** Both lookups miss: the instance has no such attribute, it is not a
    special attribute, and the class's [igetattr] raises before it yields. *)
Lemma igetattr_gen_both_miss : forall c name ctx s s2 i e,
  instance_attr W c name (Some ctx) = Raise (AttributeInferenceError i) ->
  special_lookup W (Instance c) name = None ->
  mem_key (c, name) (visited s ctx) = false ->
  first_value (class_igetattr_gen G c name (Some ctx) false)
    (record_visit ctx (c, name) s)
  = Some (Raise (AttributeInferenceError e), s2) ->
  first_value (BaseInstance_igetattr_gen W G (Instance c) name (Some ctx)) s
  = Some (Raise (InferenceError e), s2).
Proof.
  intros c name ctx s s2 i e Hi Hs Hm Hc.
  rewrite (igetattr_gen_unseen (Instance c) c name ctx s eq_refl Hm).
  assert (Hg : BaseInstance_getattr W (Instance c) name (Some ctx) false
               = Raise (AttributeInferenceError
                          (mkInfo None (Some (Instance c)) (Some name) (Some ctx)
                                  None None None None None))).
  { unfold BaseInstance_getattr, proxied. now rewrite Hi, Hs. }
  rewrite Hg. rewrite first_value_catch. cbn [first_value ret].
  rewrite first_value_catch.
  unfold _wrap_attr_gen.
  rewrite (first_value_for_each_raise _ _ _ _ _ Hc). reflexivity.
Qed.

Lemma BOOL_SPECIAL_METHOD_not_len :
  String.eqb "__len__" (BOOL_SPECIAL_METHOD W) = false.
Proof. unfold BOOL_SPECIAL_METHOD. now destruct (py3 W). Qed.

Lemma inference_failure_true : forall e,
  inference_failure e = true <->
  ((exists i, e = InferenceError i) \/ (exists i, e = AttributeInferenceError i)).
Proof.
  intro e. split.
  - destruct e; simpl; intro H; try discriminate; eauto.
  - intros [[i ->]|[i ->]]; reflexivity.
Qed.

(** C6, as the code has it.  [bool_value] makes a context of its own, whose
    call arguments are the instance, and probes the boolean-coercion method;
    only when that probe raises [InferenceError] or [AttributeInferenceError]
    is the length method probed, and when that probe raises one of the two as
    well the instance is true; any other exception leaves [bool_value].  A
    probe takes the first value of [igetattr], asks whether it is callable,
    takes the first value of its call result and the first value that value
    infers to, and answers with that one's truth; an exception raised by any
    of these steps leaves the probe unchanged, and a step that gives nothing
    (no attribute, a method that is not callable, no call result, an
    [Uninferable] call result) makes the probe answer [Uninferable] without
    raising, so that [bool_value] answers [Uninferable] with no fallback.
    Every instance of a class that has neither method is true. *)
Theorem bool_value_probes_bool_then_len :
  forall (self : node) (s : store),
    let c := mkContext (List.length s) (Some [self]) None in
    let probe := _infer_method_result_truth W G self in
    let swallowed := fun e : exc =>
      (exists i, e = InferenceError i)
      \/ (exists i, e = AttributeInferenceError i) in
    (forall t s2,
        probe (if py3 W then "__bool__" else "__nonzero__") c (s ++ [[]])
        = Some (Ok t, s2) ->
        Instance_bool_value W G self s = Some (Ok t, s2))
    /\ (forall e s2,
          probe (if py3 W then "__bool__" else "__nonzero__") c (s ++ [[]])
          = Some (Raise e, s2) ->
          ~ swallowed e ->
          Instance_bool_value W G self s = Some (Raise e, s2))
    /\ (forall e s2,
          probe (if py3 W then "__bool__" else "__nonzero__") c (s ++ [[]])
          = Some (Raise e, s2) ->
          swallowed e ->
          (forall t s3,
              probe "__len__" c s2 = Some (Ok t, s3) ->
              Instance_bool_value W G self s = Some (Ok t, s3))
          /\ (forall e2 s3,
                probe "__len__" c s2 = Some (Raise e2, s3) ->
                swallowed e2 ->
                Instance_bool_value W G self s = Some (Ok PyTrue, s3))
          /\ (forall e2 s3,
                probe "__len__" c s2 = Some (Raise e2, s3) ->
                ~ swallowed e2 ->
                Instance_bool_value W G self s = Some (Raise e2, s3)))
    /\ (forall name ctx st e st1,
          first_value (BaseInstance_igetattr_gen W G self name (Some ctx)) st
          = Some (Raise e, st1) ->
          probe name ctx st = Some (Raise e, st1))
    /\ (forall name ctx st st1,
          first_value (BaseInstance_igetattr_gen W G self name (Some ctx)) st
          = Some (Ok None, st1) ->
          probe name ctx st = Some (Ok TruthUninferable, st1))
    /\ (forall name ctx st meth st1,
          first_value (BaseInstance_igetattr_gen W G self name (Some ctx)) st
          = Some (Ok (Some meth), st1) ->
          (usable_method W meth = false ->
           probe name ctx st = Some (Ok TruthUninferable, st1))
          /\ (usable_method W meth = true ->
              forall e, callable W meth = Raise e ->
              probe name ctx st = Some (Raise e, st1))
          /\ (usable_method W meth = true ->
              callable W meth = Ok false ->
              probe name ctx st = Some (Ok TruthUninferable, st1))
          /\ (usable_method W meth = true ->
              callable W meth = Ok true ->
              (forall e st2,
                  first_value (infer_call_result_gen W G meth self (Some ctx)) st1
                  = Some (Raise e, st2) ->
                  probe name ctx st = Some (Raise e, st2))
              /\ (forall st2,
                    first_value (infer_call_result_gen W G meth self (Some ctx)) st1
                    = Some (Ok None, st2) ->
                    probe name ctx st = Some (Ok TruthUninferable, st2))
              /\ (forall st2,
                    first_value (infer_call_result_gen W G meth self (Some ctx)) st1
                    = Some (Ok (Some Uninferable), st2) ->
                    probe name ctx st = Some (Ok TruthUninferable, st2))
              /\ (forall value st2,
                    first_value (infer_call_result_gen W G meth self (Some ctx)) st1
                    = Some (Ok (Some value), st2) ->
                    value <> Uninferable ->
                    (forall e st3,
                        first_value (infer_gen G value (Some ctx)) st2
                        = Some (Raise e, st3) ->
                        probe name ctx st = Some (Raise e, st3))
                    /\ (forall st3,
                          first_value (infer_gen G value (Some ctx)) st2
                          = Some (Ok None, st3) ->
                          probe name ctx st = Some (Raise StopIteration, st3))
                    /\ (forall inferred st3,
                          first_value (infer_gen G value (Some ctx)) st2
                          = Some (Ok (Some inferred), st3) ->
                          probe name ctx st = bool_value_of W inferred st3))))
    /\ (forall f b k, usable_method W (BoundMethod f b) = true
                      /\ usable_method W (UnboundMethod f) = true
                      /\ usable_method W (Instance f) = true
                      /\ usable_method W (FunctionDef k)
                         = has_infer_call_result W (FunctionDef k))
    /\ (forall cl ib il eb el,
          self = Instance cl ->
          instance_attr W cl (if py3 W then "__bool__" else "__nonzero__") (Some c)
          = Raise (AttributeInferenceError ib) ->
          instance_attr W cl "__len__" (Some c)
          = Raise (AttributeInferenceError il) ->
          (forall table, special_attributes W self = Some table ->
                         forall v, ~ In ("__len__", v) table
                                   /\ ~ In ("__bool__", v) table
                                   /\ ~ In ("__nonzero__", v) table) ->
          (forall st, first_value
                        (class_igetattr_gen G cl
                           (if py3 W then "__bool__" else "__nonzero__")
                           (Some c) false) st
                      = Some (Raise (AttributeInferenceError eb), st)) ->
          (forall st, first_value
                        (class_igetattr_gen G cl "__len__" (Some c) false) st
                      = Some (Raise (AttributeInferenceError el), st)) ->
          Instance_bool_value W G self s
          = Some (Ok PyTrue,
                  record_visit c (cl, "__len__")
                    (record_visit c
                       (cl, if py3 W then "__bool__" else "__nonzero__")
                       (s ++ [[]])))).
Proof.
  intros self s c probe swallowed.
  change (if py3 W then "__bool__" else "__nonzero__")%string
    with (BOOL_SPECIAL_METHOD W).
  assert (Hunfold : Instance_bool_value W G self s
    = (r <- probe (BOOL_SPECIAL_METHOD W) c ;;
       match r with
       | Ok result => ret (Ok result)
       | Raise e =>
           if inference_failure e then
             r2 <- probe "__len__" c ;;
             match r2 with
             | Ok result => ret (Ok result)
             | Raise e2 => if inference_failure e2 then ret (Ok PyTrue)
                           else ret (Raise e2)
             end
           else ret (Raise e)
       end) (s ++ [[]])) by reflexivity.
  assert (Hsw : forall e, swallowed e -> inference_failure e = true).
  { intros e H. now apply inference_failure_true. }
  assert (Hnsw : forall e, ~ swallowed e -> inference_failure e = false).
  { intros e H. destruct (inference_failure e) eqn:E; [|reflexivity].
    exfalso. apply H. now apply inference_failure_true. }
  assert (Hthird : forall e s2,
          probe (BOOL_SPECIAL_METHOD W) c (s ++ [[]]) = Some (Raise e, s2) ->
          swallowed e ->
          (forall t s3,
              probe "__len__" c s2 = Some (Ok t, s3) ->
              Instance_bool_value W G self s = Some (Ok t, s3))
          /\ (forall e2 s3,
                probe "__len__" c s2 = Some (Raise e2, s3) ->
                swallowed e2 ->
                Instance_bool_value W G self s = Some (Ok PyTrue, s3))
          /\ (forall e2 s3,
                probe "__len__" c s2 = Some (Raise e2, s3) ->
                ~ swallowed e2 ->
                Instance_bool_value W G self s = Some (Raise e2, s3))).
  { intros e s2 H He. apply Hsw in He. split; [|split].
    - intros t s3 H2. rewrite Hunfold. unfold bind at 1. rewrite H, He.
      unfold bind. now rewrite H2.
    - intros e2 s3 H2 He2. apply Hsw in He2.
      rewrite Hunfold. unfold bind at 1. rewrite H, He.
      unfold bind. now rewrite H2, He2.
    - intros e2 s3 H2 He2. apply Hnsw in He2.
      rewrite Hunfold. unfold bind at 1. rewrite H, He.
      unfold bind. now rewrite H2, He2. }
  split; [|split; [|split; [|split; [|split; [|split; [|split]]]]]].
  - intros t s2 H. rewrite Hunfold. unfold bind. now rewrite H.
  - intros e s2 H He. apply Hnsw in He.
    rewrite Hunfold. unfold bind. now rewrite H, He.
  - exact Hthird.
  - intros name ctx st e st1 Hg.
    unfold probe, _infer_method_result_truth, bind. now rewrite Hg.
  - intros name ctx st st1 Hg.
    unfold probe, _infer_method_result_truth, bind. now rewrite Hg.
  - intros name ctx st meth st1 Hg.
    unfold probe, _infer_method_result_truth, bind. rewrite Hg.
    split; [|split; [|split]].
    + now intros ->.
    + now intros -> e ->.
    + now intros -> ->.
    + intros -> ->. split; [|split; [|split]].
      * now intros e st2 ->.
      * now intros st2 ->.
      * now intros st2 ->.
      * intros value st2 -> Hv.
        assert (Hu : is_Uninferable value = false) by now destruct value.
        rewrite Hu. split; [|split].
        -- now intros e st3 ->.
        -- now intros st3 ->.
        -- now intros inferred st3 ->.
  - intros f b k. repeat split.
  - intros cl ib il eb el -> Hib Hil Hspecial Hcb Hcl.
    assert (Hsb : special_lookup W (Instance cl) (BOOL_SPECIAL_METHOD W) = None).
    { unfold special_lookup.
      destruct (special_attributes W (Instance cl)) as [table|] eqn:Et;
        [|reflexivity].
      apply assoc_absent. intro v.
      destruct (Hspecial table eq_refl v) as (_ & Hb1 & Hb2).
      unfold BOOL_SPECIAL_METHOD. now destruct (py3 W). }
    assert (Hsl : special_lookup W (Instance cl) "__len__" = None).
    { unfold special_lookup.
      destruct (special_attributes W (Instance cl)) as [table|] eqn:Et;
        [|reflexivity].
      apply assoc_absent. intro v.
      now destruct (Hspecial table eq_refl v) as (Hl1 & _). }
    assert (Hp : path c < List.length (s ++ [[]])).
    { rewrite length_app. simpl. lia. }
    assert (Hb : probe (BOOL_SPECIAL_METHOD W) c (s ++ [[]])
                 = Some (Raise (InferenceError eb),
                         record_visit c (cl, BOOL_SPECIAL_METHOD W) (s ++ [[]]))).
    { unfold probe, _infer_method_result_truth, bind.
      rewrite (igetattr_gen_both_miss cl _ c (s ++ [[]])
                 (record_visit c (cl, BOOL_SPECIAL_METHOD W) (s ++ [[]]))
                 ib eb Hib Hsb); [reflexivity| |apply Hcb].
      unfold c. simpl path. now rewrite visited_fresh. }
    assert (Hl : probe "__len__" c
                   (record_visit c (cl, BOOL_SPECIAL_METHOD W) (s ++ [[]]))
                 = Some (Raise (InferenceError el),
                         record_visit c (cl, "__len__")
                           (record_visit c (cl, BOOL_SPECIAL_METHOD W)
                              (s ++ [[]])))).
    { unfold probe, _infer_method_result_truth, bind.
      rewrite (igetattr_gen_both_miss cl _ c
                 (record_visit c (cl, BOOL_SPECIAL_METHOD W) (s ++ [[]]))
                 (record_visit c (cl, "__len__")
                    (record_visit c (cl, BOOL_SPECIAL_METHOD W) (s ++ [[]])))
                 il el Hil Hsl); [reflexivity| |apply Hcl].
      rewrite visited_record by exact Hp.
      unfold c. simpl path. rewrite visited_fresh.
      unfold mem_key, key_eqb. cbn [existsb fst snd].
      now rewrite BOOL_SPECIAL_METHOD_not_len, andb_false_r. }
    destruct (Hthird _ _ Hb) as (_ & H2 & _).
    { left. now exists eb. }
    apply (H2 _ _ Hl). left. now exists el.
Qed.

End BoolValueFacts.

Lemma bool_value_probes_bool_then_len_witness :
  Instance_bool_value Demo.W Demo.gens (Instance Demo.A) []
  = Some (Ok PyTrue, [[(Demo.A, "__len__"); (Demo.A, "__bool__")]])
  /\ _infer_method_result_truth Shop.W Shop.gens (Instance Shop.Flag) "__len__"
       Shop.ctx [[]]
     = Some (Ok PyFalse, [[(Shop.Flag, "__len__")]]).
Proof.
  split.
  - refine (proj2 (proj2 (proj2 (proj2 (proj2 (proj2 (proj2
             (bool_value_probes_bool_then_len Demo.W Demo.gens
                (Instance Demo.A) [])))))))
             Demo.A
             (mkInfo None (Some Demo.A) (Some "__bool__")
                     (Some (Demo.bool_ctx (Instance Demo.A))) None None None None None)
             (mkInfo None (Some Demo.A) (Some "__len__")
                     (Some (Demo.bool_ctx (Instance Demo.A))) None None None None None)
             (mkInfo None (Some Demo.A) (Some "__bool__")
                     (Some (Demo.bool_ctx (Instance Demo.A))) None None None None None)
             (mkInfo None (Some Demo.A) (Some "__len__")
                     (Some (Demo.bool_ctx (Instance Demo.A))) None None None None None)
             eq_refl eq_refl eq_refl _
             (fun st => eq_refl) (fun st => eq_refl)).
    intros table Ht v. cbv in Ht. injection Ht as <-.
    repeat split; intros [E | []]; discriminate E.
  - destruct (bool_value_probes_bool_then_len Shop.W Shop.gens
                (Instance Shop.Flag) []) as (_ & _ & _ & _ & _ & H & _).
    destruct (H "__len__" Shop.ctx [[]]
                (BoundMethod (FunctionDef 7) (Instance Shop.Flag))
                [[(Shop.Flag, "__len__")]] eq_refl) as (_ & _ & _ & H2).
    destruct (H2 eq_refl eq_refl) as (_ & _ & _ & H3).
    destruct (H3 (Other 0) [[(Shop.Flag, "__len__")]] eq_refl) as (_ & _ & H4);
      [discriminate|].
    exact (H4 (Other 0) [[(Shop.Flag, "__len__")]] eq_refl).
Defined.

(** C6, as stated, fails: for an instance of the class [E] above the method
    the boolean-coercion probe resolves is not callable; [bool_value] answers
    [Uninferable], and the length method, whose probe would have said false, is
    not consulted. *)
Lemma bool_value_not_callable_is_no_fallback :
  first_value
    (BaseInstance_igetattr_gen Demo.W Demo.gens (Instance Demo.E) "__bool__"
       (Some (Demo.bool_ctx (Instance Demo.E)))) [[]]
  = Some (Ok (Some (Instance Demo.object_)), [[(Demo.E, "__bool__")]])
  /\ callable Demo.W (Instance Demo.object_) = Ok false
  /\ Instance_bool_value Demo.W Demo.gens (Instance Demo.E) []
     = Some (Ok TruthUninferable, [[(Demo.E, "__bool__")]])
  /\ _infer_method_result_truth Demo.W Demo.gens (Instance Demo.E) "__len__"
       (Demo.bool_ctx (Instance Demo.E)) [[(Demo.E, "__bool__")]]
     = Some (Ok PyFalse, [[(Demo.E, "__len__"); (Demo.E, "__bool__")]]).
Proof. repeat split. Qed.

(** The lookup of [__len__] on an instance of [Seq] above, run to its end,
    calls the property of [Base] and leaves the lookup of [n] in the visited
    set; the probe takes the first candidate only, so the call of that
    candidate still finds [n], and the instance is false. *)
Example probe_takes_the_first_candidate :
  BaseInstance_igetattr Seqs.W (Instance Seqs.Seq) "__len__" (Some Seqs.ctx) [[]]
  = Some (([BoundMethod (FunctionDef 2) (Instance Seqs.Seq); Other 0], None),
          [[(Seqs.Seq, "n"); (Seqs.Seq, "__len__")]])
  /\ exhaust (BaseInstance_igetattr_gen Seqs.W Seqs.gens (Instance Seqs.Seq)
                "__len__" (Some Seqs.ctx)) [[]]
     = Some (([BoundMethod (FunctionDef 2) (Instance Seqs.Seq); Other 0], None),
             [[(Seqs.Seq, "n"); (Seqs.Seq, "__len__")]])
  /\ first_value (BaseInstance_igetattr_gen Seqs.W Seqs.gens (Instance Seqs.Seq)
                    "__len__" (Some Seqs.ctx)) [[]]
     = Some (Ok (Some (BoundMethod (FunctionDef 2) (Instance Seqs.Seq))),
             [[(Seqs.Seq, "__len__")]])
  /\ _infer_method_result_truth Seqs.W Seqs.gens (Instance Seqs.Seq) "__len__"
       Seqs.ctx [[]]
     = Some (Ok PyFalse, [[(Seqs.Seq, "n"); (Seqs.Seq, "__len__")]])
  /\ Instance_bool_value Seqs.W Seqs.gens (Instance Seqs.Seq) []
     = Some (Ok PyFalse,
             [[(Seqs.Seq, "n"); (Seqs.Seq, "__len__"); (Seqs.Seq, "__bool__")]]).
Proof. repeat split; vm_compute; reflexivity. Qed.

(** ** Termination of BaseInstance.igetattr on attribute chains *)


Lemma ext_refl : forall r s, ext r s s.
Proof. intros r s. split; auto. Qed.

Lemma ext_trans : forall r s1 s2 s3, ext r s1 s2 -> ext r s2 s3 -> ext r s1 s3.
Proof.
  intros r s1 s2 s3 [L1 H1] [L2 H2]. split; [lia | auto].
Qed.

Lemma ext_record_visit : forall c k s,
  path c < List.length s -> ext (path c) s (record_visit c k s).
Proof.
  intros c k s Hp. split.
  - unfold record_visit. now rewrite length_set_nth.
  - intros k' Hk'. unfold record_visit. rewrite nth_set_nth by exact Hp.
    unfold mem_key in *. simpl. unfold visited. rewrite Hk'.
    apply orb_true_r.
Qed.


Lemma ok2_ret : forall A r s0 (a : A), ok2 r s0 (ret a) (ret a).
Proof.
  intros A r s0 a s _. exists a, s. repeat split; auto.
Qed.

Lemma ok2_bind : forall A B r s0 (m1 m2 : M A) (k1 k2 : A -> M B),
  ok2 r s0 m1 m2 ->
  (forall a, ok2 r s0 (k1 a) (k2 a)) ->
  ok2 r s0 (bind m1 k1) (bind m2 k2).
Proof.
  intros A B r s0 m1 m2 k1 k2 Hm Hk s Hs.
  destruct (Hm s Hs) as (a & s' & E1 & E2 & Hs').
  destruct (Hk a s' (ext_trans _ _ _ _ Hs Hs')) as (b & s'' & F1 & F2 & Hs'').
  exists b, s''. unfold bind. rewrite E1, E2. repeat split; auto.
  - apply (proj1 (ext_trans _ _ _ _ Hs' Hs'')).
  - apply (proj2 (ext_trans _ _ _ _ Hs' Hs'')).
Qed.

Lemma ok2_for_list : forall r s0 l tail (b1 b2 : node -> M gen),
  (forall x, In x l -> ok2 r s0 (b1 x) (b2 x)) ->
  ok2 r s0 (for_list l tail b1) (for_list l tail b2).
Proof.
  intros r s0 l tail b1 b2. induction l as [|x l IH]; intro H; simpl.
  - apply ok2_ret.
  - apply ok2_bind.
    + apply H. now left.
    + intros [v [e|]]; simpl.
      * apply ok2_ret.
      * apply ok2_bind; [|intro; apply ok2_ret].
        apply IH. intros y Hy. apply H. now right.
Qed.

Lemma ok2_later : forall A r s0 s1 (m1 m2 : M A),
  ext r s0 s1 -> ok2 r s0 m1 m2 -> ok2 r s1 m1 m2.
Proof.
  intros A r s0 s1 m1 m2 H01 H s Hs. apply H. eapply ext_trans; eauto.
Qed.

(** Counting the pairs that are left. *)
Lemma filter_length_le : forall (A : Type) (f g : A -> bool) (l : list A),
  (forall x, f x = true -> g x = true) ->
  List.length (filter f l) <= List.length (filter g l).
Proof.
  intros A f g l H. induction l as [|x l IH]; simpl; auto.
  destruct (f x) eqn:E.
  - rewrite (H x E). simpl. lia.
  - destruct (g x); simpl; lia.
Qed.

Lemma filter_length_lt : forall (A : Type) (f g : A -> bool) (l : list A) a,
  (forall x, f x = true -> g x = true) ->
  In a l -> f a = false -> g a = true ->
  List.length (filter f l) < List.length (filter g l).
Proof.
  intros A f g l a H. induction l as [|x l IH]; simpl; intros Hin Hf Hg.
  - contradiction.
  - destruct Hin as [-> | Hin].
    + rewrite Hf, Hg. simpl.
      pose proof (filter_length_le A f g l H). lia.
    + specialize (IH Hin Hf Hg). destruct (f x) eqn:E.
      * rewrite (H x E). simpl. lia.
      * destruct (g x); simpl; lia.
Qed.

Lemma key_eqb_refl : forall k, key_eqb k k = true.
Proof.
  intros [n s]. unfold key_eqb. simpl.
  now rewrite node_eqb_refl, String.eqb_refl.
Qed.

Lemma remaining_ext : forall T r s s',
  ext r s s' -> Chains.remaining T r s' <= Chains.remaining T r s.
Proof.
  intros T r s s' [_ H]. unfold Chains.remaining. apply filter_length_le.
  intros k Hk. apply negb_true_iff in Hk. apply negb_true_iff.
  destruct (mem_key k (nth r s [])) eqn:E; auto.
  apply H in E. congruence.
Qed.

Lemma remaining_record_visit : forall T c k s,
  path c < List.length s ->
  In k (Chains.universe T) ->
  mem_key k (visited s c) = false ->
  Chains.remaining T (path c) (record_visit c k s) < Chains.remaining T (path c) s.
Proof.
  intros T c k s Hp Hin Hm. unfold Chains.remaining.
  apply filter_length_lt with (a := k); auto.
  - intros x Hx. apply negb_true_iff in Hx. apply negb_true_iff.
    destruct (mem_key x (nth (path c) s [])) eqn:E; auto.
    apply (proj2 (ext_record_visit c k s Hp)) in E. congruence.
  - unfold record_visit. rewrite nth_set_nth by exact Hp.
    unfold mem_key. simpl. now rewrite key_eqb_refl.
  - unfold visited in Hm. now rewrite Hm.
Qed.

Section Levels.

Import Chains.

Variable T : table.
Variables cb1 cb2 : node -> string -> option InferenceContext -> M gen.
Variables cbb1 cbb2 : node -> M (result truth).
Variables cbc1 cbc2 : node -> node -> option InferenceContext -> M gen.

Let W1 : World := world_of T cb1 cbb1 cbc1.
Let W2 : World := world_of T cb2 cbb2 cbc2.

Lemma eval_agree : forall r s0 e self c,
  agree_from r s0 cb1 cb2 -> path c = r ->
  ok2 r s0 (eval cb1 e self c) (eval cb2 e self c).
Proof.
  intros r s0 e self c Hcb Hc. induction e as [| d | e IH name]; simpl.
  - apply ok2_ret.
  - apply ok2_ret.
  - apply ok2_bind; [exact IH|]. intro owners. unfold for_each.
    apply ok2_for_list. intros x _.
    destruct (is_Uninferable x); [apply ok2_ret|].
    destruct x; simpl; try apply ok2_ret.
    apply ok2_bind; [now apply Hcb|].
    intros [v [e0|]]; simpl; [destruct (inference_failure e0)|]; apply ok2_ret.
Qed.

Lemma ok2_bind_ret : forall A B r s0 (a : A) (k1 k2 : A -> M B),
  ok2 r s0 (k1 a) (k2 a) -> ok2 r s0 (bind (ret a) k1) (bind (ret a) k2).
Proof. intros A B r s0 a k1 k2 H s Hs. exact (H s Hs). Qed.

Lemma function_call_agree : forall r s0 f caller c,
  agree_from r s0 cb1 cb2 -> path c = r ->
  ok2 r s0 (t_infer_call_result T cb1 cbc1 (FunctionDef f) caller (Some c))
           (t_infer_call_result T cb2 cbc2 (FunctionDef f) caller (Some c)).
Proof.
  intros r s0 f caller c Hcb Hc. simpl.
  destruct (nth_error (functions T) f) as [d|]; [|apply ok2_ret].
  apply ok2_bind_ret. now apply eval_agree.
Qed.

Lemma unbound_call_agree : forall r s0 f caller c,
  agree_from r s0 cb1 cb2 -> path c = r ->
  ok2 r s0 (UnboundMethod_infer_call_result W1 (FunctionDef f) caller (Some c))
           (UnboundMethod_infer_call_result W2 (FunctionDef f) caller (Some c)).
Proof.
  intros r s0 f caller c Hcb Hc. unfold UnboundMethod_infer_call_result.
  unfold W1, W2.
  cbn [node_name parent_frame_qname caller_args node_infer_call_result
       world_of BUILTINS py3 Uninferable_truth].
  match goal with |- context [if ?b then _ else _] => destruct b end.
  - apply ok2_bind_ret. apply ok2_ret.
  - now apply function_call_agree.
Qed.

Lemma bound_call_agree : forall r s0 f b caller c,
  agree_from r s0 cb1 cb2 -> path c = r ->
  ok2 r s0 (BoundMethod_infer_call_result W1 (FunctionDef f) b caller (Some c))
           (BoundMethod_infer_call_result W2 (FunctionDef f) b caller (Some c)).
Proof.
  intros r s0 f b caller c Hcb Hc. unfold BoundMethod_infer_call_result.
  simpl context_or_new. apply ok2_bind_ret.
  now apply unbound_call_agree.
Qed.

Lemma wrap_body_agree : forall r s0 self c attr,
  (is_UnboundMethod attr = true -> agree_from r s0 cb1 cb2) ->
  wraps_function attr = true ->
  path c = r ->
  ok2 r s0 (_wrap_attr_body W1 self (Some c) attr)
           (_wrap_attr_body W2 self (Some c) attr).
Proof.
  intros r s0 self c attr Hcb Hw Hc. unfold _wrap_attr_body.
  destruct (is_UnboundMethod attr) eqn:Hu.
  - change (is_property W2 (forwarded attr)) with (is_property W1 (forwarded attr)).
    destruct (is_property W1 (forwarded attr)); [|apply ok2_ret].
    destruct attr as [| | | | | |p|p b| |]; try discriminate;
      destruct p; try discriminate; simpl.
    + now apply unbound_call_agree; auto.
    + now apply bound_call_agree; auto.
  - unfold W1, W2.
    cbn [node_name statement_scope_is_class first_arg_name world_of].
    match goal with |- context [if ?b then _ else _] => destruct b end;
      simpl; apply ok2_ret.
Qed.

Lemma wrap_agree : forall r s0 self c attrs,
  ((exists a, In a (fst attrs) /\ is_UnboundMethod a = true) ->
   agree_from r s0 cb1 cb2) ->
  (forall a, In a (fst attrs) -> wraps_function a = true) ->
  path c = r ->
  ok2 r s0 (_wrap_attr W1 self attrs (Some c)) (_wrap_attr W2 self attrs (Some c)).
Proof.
  intros r s0 self c attrs Hcb Hw Hc. unfold _wrap_attr, for_each.
  apply ok2_for_list. intros x Hx. apply wrap_body_agree; auto.
  intro Hu. apply Hcb. now exists x.
Qed.

Lemma declared_plain : forall name l a,
  In a (declared name l) -> exists d, a = node_of d.
Proof.
  intros name l a. induction l as [|[k d] l IH]; simpl; [contradiction|].
  destruct (String.eqb name k); auto.
  intros [<- | H]; eauto.
Qed.

Lemma declared_name : forall name l,
  declared name l <> [] -> In name (map fst l).
Proof.
  intros name l. induction l as [|[k d] l IH]; simpl; [congruence|].
  destruct (String.eqb name k) eqn:E; auto.
  intros _. left. apply String.eqb_eq in E. now subst.
Qed.

Lemma lookup_in_plain : forall field p name a,
  In a (lookup_in T field p name) -> exists d, a = node_of d.
Proof.
  intros field p name a. unfold lookup_in.
  destruct p; try contradiction.
  destruct (nth_error (classes T) id); try contradiction.
  intro H. apply in_flat_map in H. destruct H as (j & _ & Hj).
  destruct (nth_error (classes T) j); try contradiction.
  now apply declared_plain in Hj.
Qed.

Lemma node_of_plain : forall d,
  is_UnboundMethod (node_of d) = false /\ wraps_function (node_of d) = true.
Proof. destruct d; auto. Qed.

Lemma lookup_in_universe : forall field p name,
  (field = c_locals \/ field = c_instance_attrs) ->
  lookup_in T field p name <> [] -> In (p, name) (universe T).
Proof.
  intros field p name Hf. unfold lookup_in.
  destruct p; try congruence.
  destruct (nth_error (classes T) id) as [d|] eqn:Ed; try congruence.
  intro H.
  assert (Hn : In name (names T)).
  { destruct (flat_map _ (c_mro d)) as [|a l] eqn:E; [congruence|].
    assert (Ha : In a (a :: l)) by now left.
    rewrite <- E in Ha. apply in_flat_map in Ha. destruct Ha as (j & _ & Hj).
    destruct (nth_error (classes T) j) as [dj|] eqn:Ej; try contradiction.
    unfold names. apply in_flat_map. exists dj. split.
    - now apply nth_error_In in Ej.
    - apply in_or_app.
      assert (Hd : declared name (field dj) <> []).
      { intro E0. rewrite E0 in Hj. contradiction. }
      apply declared_name in Hd.
      destruct Hf as [-> | ->]; auto. }
  unfold universe. apply in_flat_map. exists id. split.
  - apply in_seq. split; [lia|]. simpl.
    apply nth_error_Some. congruence.
  - apply in_map_iff. now exists name.
Qed.

Lemma function_to_method_plain : forall c d,
  wraps_function (function_to_method T c (node_of d)) = true.
Proof.
  intros c [f|k|i|i]; simpl; auto.
  destruct (String.eqb _ "classmethod"); auto.
  destruct (String.eqb _ "staticmethod"); auto.
Qed.

Lemma getattr_plain : forall p name ctx attrs a,
  BaseInstance_getattr W1 (Instance p) name ctx false = Ok attrs ->
  In a attrs ->
  is_UnboundMethod a = false /\ wraps_function a = true.
Proof.
  intros p name ctx attrs a. unfold BaseInstance_getattr, proxied, W1.
  cbn [instance_attr world_of]. unfold t_instance_attr.
  destruct (lookup_in T c_instance_attrs p name) as [|x l] eqn:El.
  - unfold not_found, special_lookup.
    cbn [special_attributes world_of t_special_attributes].
    destruct (is_ClassDef p) eqn:Ep; cbn [assoc].
    + destruct (String.eqb name "__class__"); [|discriminate].
      intros [= <-] [<- | []]. destruct p; try discriminate. auto.
    + discriminate.
  - intros [= <-] Ha. rewrite <- El in Ha.
    apply lookup_in_plain in Ha. destruct Ha as (d & ->). apply node_of_plain.
Qed.

Lemma igetattr_agree : forall p name c s,
  path c < List.length s ->
  (In (p, name) (universe T) ->
   mem_key (p, name) (visited s c) = false ->
   agree_from (path c) (record_visit c (p, name) s) cb1 cb2) ->
  exists g s',
    BaseInstance_igetattr W1 (Instance p) name (Some c) s = Some (g, s')
    /\ BaseInstance_igetattr W2 (Instance p) name (Some c) s = Some (g, s')
    /\ ext (path c) s s'.
Proof.
  intros p name c s Hp Hcb.
  destruct (mem_key (p, name) (visited s c)) eqn:Hm.
  - exists gen_empty, s.
    rewrite (igetattr_seen W1 (Instance p) p name c s eq_refl Hm).
    rewrite (igetattr_seen W2 (Instance p) p name c s eq_refl Hm).
    repeat split; auto.
  - rewrite (igetattr_unseen W1 (Instance p) p name c s eq_refl Hm).
    rewrite (igetattr_unseen W2 (Instance p) p name c s eq_refl Hm).
    set (s1 := record_visit c (p, name) s).
    assert (Hext : ext (path c) s s1) by now apply ext_record_visit.
    match goal with
    | |- exists g s', ?m1 s1 = _ /\ ?m2 s1 = _ /\ _ =>
        assert (Hok : ok2 (path c) s1 m1 m2)
    end.
    { apply ok2_bind.
      - unfold igetattr_instance_path.
        change (BaseInstance_getattr W2 (Instance p) name (Some c) false)
          with (BaseInstance_getattr W1 (Instance p) name (Some c) false).
        destruct (BaseInstance_getattr W1 (Instance p) name (Some c) false)
          as [attrs|e] eqn:Hg; [|apply ok2_ret].
        apply ok2_bind.
        + apply wrap_agree; [| |reflexivity].
          * intros (a & Ha & Hu).
            destruct (getattr_plain _ _ _ _ _ Hg Ha) as [Hu' _]. congruence.
          * intros a Ha. now destruct (getattr_plain _ _ _ _ _ Hg Ha).
        + intros [[|x l] [e|]]; apply ok2_ret.
      - intros [v [[]|]]; try apply ok2_ret.
        apply ok2_bind; [|intro; apply ok2_ret].
        unfold igetattr_class_path, W1, W2. cbn [class_igetattr world_of].
        unfold t_igetattr, t_getattr.
        destruct (lookup_in T c_locals p name) as [|x l] eqn:El.
        + apply ok2_bind_ret. apply ok2_bind.
          * apply wrap_agree; [| |reflexivity].
            -- intros (a & [] & _).
            -- intros a [].
          * intros [w [[]|]]; apply ok2_ret.
        + apply ok2_bind_ret. apply ok2_bind.
          * apply wrap_agree; [| |reflexivity].
            -- intros _. apply Hcb; auto.
               apply (lookup_in_universe c_locals); auto. congruence.
            -- intros a Ha. unfold gen_of_list in Ha. cbn [fst] in Ha.
               rewrite <- El in Ha.
               apply in_map_iff in Ha. destruct Ha as (y & <- & Hy).
               apply lookup_in_plain in Hy. destruct Hy as (d & ->).
               apply function_to_method_plain.
          * intros [w [[]|]]; apply ok2_ret. }
    destruct (Hok s1 (ext_refl _ _)) as (g & s' & E1 & E2 & He).
    exists g, s'. repeat split; auto.
    + apply (proj1 (ext_trans _ _ _ _ Hext He)).
    + apply (proj2 (ext_trans _ _ _ _ Hext He)).
Qed.

End Levels.

Section Termination.

Import Chains.

Variable T : table.

Lemma world_shape : forall fuel,
  exists cb cbb cbc,
    world T fuel = world_of T cb cbb cbc
    /\ forall n, fuel = S n -> cb = BaseInstance_igetattr (world T n).
Proof.
  intros [|n]; simpl; do 3 eexists; (split; [reflexivity|]).
  - discriminate.
  - now intros n' [= ->].
Qed.

(** With [m] pairs of the universe left to visit, [m] unfoldings are enough,
    and more change nothing. *)
Lemma igetattr_enough_fuel : forall m f1 f2 p name c s,
  m <= f1 -> m <= f2 ->
  path c < List.length s ->
  remaining T (path c) s <= m ->
  exists g s',
    BaseInstance_igetattr (world T f1) (Instance p) name (Some c) s = Some (g, s')
    /\ BaseInstance_igetattr (world T f2) (Instance p) name (Some c) s
       = Some (g, s')
    /\ ext (path c) s s'.
Proof.
  induction m as [|m IH]; intros f1 f2 p name c s H1 H2 Hp Hr;
    destruct (world_shape f1) as (cb1 & cbb1 & cbc1 & -> & Hcb1);
    destruct (world_shape f2) as (cb2 & cbb2 & cbc2 & -> & Hcb2);
    apply igetattr_agree; auto; intros Hin Hm;
    pose proof (remaining_record_visit T c (p, name) s Hp Hin Hm) as Hlt.
  - lia.
  - destruct f1 as [|n1]; [lia|]. destruct f2 as [|n2]; [lia|].
    rewrite (Hcb1 n1 eq_refl), (Hcb2 n2 eq_refl).
    intros p' n' c' Hc' s2 Hs2.
    rewrite <- Hc' in *.
    apply IH; try lia.
    + pose proof (proj1 Hs2) as Hl. unfold record_visit in Hl.
      rewrite length_set_nth in Hl. rewrite Hc'. lia.
    + pose proof (remaining_ext T _ _ _ Hs2). rewrite Hc' in *. lia.
Qed.

Lemma remaining_le_bound : forall r s, remaining T r s <= bound T.
Proof.
  intros r s. unfold remaining, bound.
  induction (universe T) as [|k l IH]; simpl; auto.
  destruct (negb _); simpl; lia.
Qed.

(** C2.  [igetattr] asks the context's guard about the pair (proxied class,
    name) first: if the pair was visited it yields nothing, and otherwise the
    pair is in the visited set when the lookup proper starts.  Hence, on a
    program whose property getters are attribute chains, [igetattr] returns
    for every instance, name and context whose visited set is in the store:
    the values yielded and the final store are the same for every recursion
    depth from [bound T] on, however the chains refer to each other. *)
Theorem igetattr_guard_terminates :
  (forall (W : World) (p : node) (name : string) (c : InferenceContext)
          (s : store),
      (mem_key (p, name) (visited s c) = true ->
       BaseInstance_igetattr W (Instance p) name (Some c) s = Some (gen_empty, s))
      /\ (mem_key (p, name) (visited s c) = false ->
          path c < List.length s ->
          mem_key (p, name) (visited (record_visit c (p, name) s) c) = true
          /\ BaseInstance_igetattr W (Instance p) name (Some c) s
             = (first <- igetattr_instance_path W (Instance p) name c ;;
                match snd first with
                | Some (AttributeInferenceError _) =>
                    second <- igetattr_class_path W (Instance p) p name c ;;
                    ret (gen_prepend (fst first) second)
                | _ => ret first
                end) (record_visit c (p, name) s)))
  /\ (forall (p : node) (name : string) (c : InferenceContext) (s : store),
        path c < List.length s ->
        exists g s',
          (forall fuel, bound T <= fuel ->
             BaseInstance_igetattr (world T fuel) (Instance p) name (Some c) s
             = Some (g, s'))
          /\ ext (path c) s s')
  /\ (forall (p : node) (name : string) (s : store),
        exists g s',
          forall fuel, bound T <= fuel ->
            BaseInstance_igetattr (world T fuel) (Instance p) name None s
            = Some (g, s')).
Proof.
  assert (Hsome : forall p name c s, path c < List.length s ->
            exists g s',
              (forall fuel, bound T <= fuel ->
                 BaseInstance_igetattr (world T fuel) (Instance p) name (Some c) s
                 = Some (g, s'))
              /\ ext (path c) s s').
  { intros p name c s Hp.
    destruct (igetattr_enough_fuel (bound T) (bound T) (bound T) p name c s
                (le_n _) (le_n _) Hp (remaining_le_bound _ _))
      as (g & s' & E & _ & He).
    exists g, s'. split; auto. intros fuel Hf.
    destruct (igetattr_enough_fuel (bound T) (bound T) fuel p name c s
                (le_n _) Hf Hp (remaining_le_bound _ _))
      as (g' & s'' & E1 & E2 & _).
    congruence. }
  split; [|split].
  - intros W p name c s. split.
    + intro Hm. now apply (igetattr_seen W (Instance p) p).
    + intros Hm Hp. split.
      * rewrite visited_record by exact Hp. unfold mem_key. simpl.
        now rewrite key_eqb_refl.
      * now apply (igetattr_unseen W (Instance p) p).
  - exact Hsome.
  - intros p name s.
    destruct (Hsome p name (mkContext (List.length s) None None) (s ++ [[]]))
      as (g & s' & H & _).
    { rewrite length_app. simpl. lia. }
    exists g, s'. intros fuel Hf. rewrite <- (H fuel Hf). reflexivity.
Qed.

End Termination.

(** The getter [F.x] returns [self.other.y], and [G.y] returns
    [self.back.x]: the chain comes back to [F.x] after four lookups. *)
Lemma igetattr_guard_terminates_witness :
  exists g s',
    (forall fuel, Chains.bound Demo.program <= fuel ->
       BaseInstance_igetattr (Chains.world Demo.program fuel) (Instance Demo.F)
         "x" (Some Demo.ctx) [[]]
       = Some (g, s'))
    /\ ext (path Demo.ctx) [[]] s'.
Proof.
  apply (proj1 (proj2 (igetattr_guard_terminates Demo.program))
           Demo.F "x" Demo.ctx [[]]).
  simpl. lia.
Defined.

(** The two cycles of the program above, run at the depth the theorem asks
    for: the chain through [G] and the getter that returns itself both end
    without a value. *)
Example cyclic_getters_end :
  BaseInstance_igetattr (Chains.world Demo.program (Chains.bound Demo.program))
    (Instance Demo.F) "x" (Some Demo.ctx) [[]]
  = Some (gen_empty,
          [[(Demo.G, "back"); (Demo.G, "y"); (Demo.F, "other"); (Demo.F, "x")]])
  /\ BaseInstance_igetattr (Chains.world Demo.program (Chains.bound Demo.program))
       (Instance Demo.F) "z" (Some Demo.ctx) [[]]
     = Some (gen_empty, [[(Demo.F, "z")]]).
Proof. split; vm_compute; reflexivity. Qed.

(** * The rest of the module *)

(** ** Property-like decorators, further *)

Section PropertyNames.

Variable W : World.

(** X1.  A decorator whose name is one of [POSSIBLE_PROPERTIES], bare or
    qualified by any dotted path, makes the function property-like, whatever
    its other decorators are. *)
Theorem is_property_any_qualification :
  forall (f : node) (q p : string),
    In p POSSIBLE_PROPERTIES ->
    In (Some p) (decoratornames W f)
    \/ In (Some (String.append q (String "." p))) (decoratornames W f) ->
    is_property W f = true.
Proof.
  intros f q p Hp Hd. apply is_property_spec. right.
  destruct Hd as [Hd | Hd].
  - exists p, p. repeat split; auto. now apply POSSIBLE_PROPERTIES_plain.
  - exists p, (String.append q (String "." p)). repeat split; auto.
    rewrite last_component_qualified. now apply POSSIBLE_PROPERTIES_plain.
Qed.

(** X2.  The names of [PROPERTIES] are matched whole: a function whose
    decorators are all called [property] under some other qualification, or
    could not be inferred, is not property-like. *)
Theorem is_property_exact_names_only :
  forall (f : node),
    (forall d, In (Some d) (decoratornames W f) ->
               ~ In d (PROPERTIES W)
               /\ exists q, d = String.append q (String "." "property")) ->
    is_property W f = false.
Proof.
  intros f H. destruct (is_property W f) eqn:E; auto.
  apply is_property_spec in E.
  destruct E as [(n & Hn & Hd) | (p & d & Hp & Hd & Hl)].
  - destruct (H n Hd) as [Hnot _]. contradiction.
  - destruct (H d Hd) as [_ (q & ->)].
    rewrite last_component_qualified in Hl. subst p.
    unfold POSSIBLE_PROPERTIES in Hp. simpl in Hp.
    repeat (destruct Hp as [Hp | Hp]; [discriminate|]). contradiction.
Qed.

End PropertyNames.

Lemma is_property_any_qualification_witness :
  is_property Shop.W (FunctionDef 1) = true.
Proof.
  apply (is_property_any_qualification Shop.W (FunctionDef 1) "functools"
           "cached_property").
  - simpl. auto.
  - right. simpl. auto.
Defined.

Lemma is_property_exact_names_only_witness :
  is_property Shop.W (FunctionDef 2) = false.
Proof.
  apply (is_property_exact_names_only Shop.W (FunctionDef 2)).
  intros d [H | []]. injection H as <-. split.
  - simpl. intros [H | [H | []]]; discriminate.
  - now exists "mymod".
Defined.

(** ** BaseInstance.getattr and igetattr, further *)

Section LookupFacts.

Variable W : World.

(** X3.  When the instance-level lookup misses, a special attribute is
    returned alone, with or without [lookupclass] and whatever the class
    declares under that name; an instance-level attribute of the same name
    hides it. *)
Theorem getattr_special_attribute_priority :
  forall (c : node) (name : string) (ctx : option InferenceContext) (v : node),
    special_lookup W (Instance c) name = Some v ->
    (forall i lookupclass,
        instance_attr W c name ctx = Raise (AttributeInferenceError i) ->
        BaseInstance_getattr W (Instance c) name ctx lookupclass = Ok [v])
    /\ (forall values,
          instance_attr W c name ctx = Ok values ->
          BaseInstance_getattr W (Instance c) name ctx false = Ok values).
Proof.
  intros c name ctx v Hs. split.
  - intros i lookupclass Hi. unfold BaseInstance_getattr, proxied.
    now rewrite Hi, Hs.
  - intros values Hi. unfold BaseInstance_getattr, proxied. now rewrite Hi.
Qed.

(** X4.  [igetattr] never ends with [AttributeInferenceError]: the one of the
    instance path starts the class path, and the one of the class path
    leaves as [InferenceError]. *)
Theorem igetattr_never_raises_attribute_inference_error :
  forall (self : node) (name : string) (ctx : option InferenceContext)
         (s s' : store) (g : gen) (i : exc_info),
    BaseInstance_igetattr W self name ctx s = Some (g, s') ->
    snd g <> Some (AttributeInferenceError i).
Proof.
  intros self name ctx s s' g i.
  unfold BaseInstance_igetattr, bind.
  destruct (context_or_new ctx s) as [[c s0]|]; [|discriminate].
  destruct (proxied W self) as [p|].
  - destruct (push c (p, name) s0) as [[[|] s1]|]; [| |discriminate].
    + intros [= <- _]. discriminate.
    + destruct (igetattr_instance_path W self name c s1) as [[first s2]|];
        [|discriminate].
      destruct (snd first) as [[i1| | | | |]|] eqn:E1;
        try (intros [= <- _]; rewrite E1; discriminate).
      unfold igetattr_class_path, bind.
      destruct (class_igetattr W p name (Some c) false s2) as [[attrs s3]|];
        [|discriminate].
      destruct (_wrap_attr W self attrs (Some c) s3) as [[second s4]|];
        [|discriminate].
      destruct (snd second) as [[i2| | | | |]|] eqn:E2;
        intros [= <- _]; simpl; try rewrite E2; discriminate.
  - intros [= <- _]. discriminate.
Qed.

End LookupFacts.

Lemma getattr_special_attribute_priority_witness :
  BaseInstance_getattr Shop.W (Instance Shop.Box) "__class__" None true
  = Ok [Shop.Box].
Proof.
  apply (proj1 (getattr_special_attribute_priority Shop.W Shop.Box "__class__"
                  None Shop.Box eq_refl)
           (mkInfo None (Some Shop.Box) (Some "__class__") None
                   None None None None None) true).
  reflexivity.
Defined.

Lemma igetattr_never_raises_attribute_inference_error_witness :
  snd (gen_raise (InferenceError
         (mkInfo None (Some Shop.Box) (Some "nope") (Some Shop.ctx)
                 None None None None None)))
  <> Some (AttributeInferenceError no_info).
Proof.
  apply (igetattr_never_raises_attribute_inference_error Shop.W
           (Instance Shop.Box) "nope" (Some Shop.ctx) [[]]
           [[(Shop.Box, "nope")]]).
  reflexivity.
Defined.

(** ** Calling objects *)

Section CallFacts.

Variable W : World.

Lemma for_list_skipped : forall l tail (body : node -> M gen) s,
  (forall n, In n l -> forall st, body n st = Some (gen_empty, st)) ->
  for_list l tail body s = Some (([], tail), s).
Proof.
  induction l as [|x l IH]; intros tail body s H; simpl; auto.
  unfold bind. rewrite (H x (or_introl eq_refl)). simpl.
  rewrite IH by (intros n Hn; apply H; now right). reflexivity.
Qed.

(** X5.  Calling an instance never ends quietly with nothing: when no
    candidate for [__call__] gave a result the call raises.  In particular,
    when the class's candidates are all [Uninferable] or not callable, it
    raises [InferenceError] for this instance and caller. *)
Theorem instance_call_yields_or_raises :
  forall (self caller : node) (ctx : option InferenceContext),
    (forall s g s',
        BaseInstance_infer_call_result W self caller ctx s = Some (g, s') ->
        g <> ([], None))
    /\ (forall p s candidates s1,
          proxied W self = Some p ->
          class_igetattr W p "__call__" ctx true s
          = Some (gen_of_list candidates, s1) ->
          (forall n, In n candidates ->
                     is_Uninferable n = true \/ callable W n = Ok false) ->
          BaseInstance_infer_call_result W self caller ctx s
          = Some (gen_raise (InferenceError
                    (mkInfo None None None ctx None None None
                            (Some self) (Some caller))), s1)).
Proof.
  intros self caller ctx. split.
  - intros s g s'. unfold BaseInstance_infer_call_result.
    destruct (proxied W self) as [p|].
    + unfold bind.
      destruct (class_igetattr W p "__call__" ctx true s) as [[calls s1]|];
        [|discriminate].
      destruct (for_each calls _ s1) as [[[[|x l] [e|]] s2]|];
        intros [= <- _]; discriminate.
    + intros [= <- _]. discriminate.
  - intros p s candidates s1 Hp Hc Hall.
    unfold BaseInstance_infer_call_result. rewrite Hp. unfold bind at 1.
    rewrite Hc. unfold bind, for_each, gen_of_list. cbn [fst snd].
    rewrite for_list_skipped; [reflexivity|].
    intros n Hn st. destruct (Hall n Hn) as [Hu | Hcall].
    + now rewrite Hu.
    + rewrite Hcall. now destruct (is_Uninferable n).
Qed.

(** X6.  The method [__new__] of the builtin [object] is not inferred as a
    function: called with arguments it gives an instance of each class the
    first argument infers to, called without it gives nothing, and binding it
    to a receiver changes neither. *)
Theorem object_new_gives_instances :
  forall (p caller : node) (ctx : option InferenceContext),
    node_name W p = Some "__new__" ->
    parent_frame_qname W p = String.append (BUILTINS W) ".object" ->
    (forall s, caller_args W caller = [] ->
               UnboundMethod_infer_call_result W p caller ctx s
               = Some (gen_empty, s))
    /\ (forall a rest s classes e s',
          caller_args W caller = a :: rest ->
          node_infer W a None s = Some ((classes, e), s') ->
          (forall x, In x classes -> is_Uninferable x = false) ->
          UnboundMethod_infer_call_result W p caller ctx s
          = Some ((map Instance classes, e), s'))
    /\ (forall b c s,
          BoundMethod_infer_call_result W p b caller (Some c) s
          = UnboundMethod_infer_call_result W p caller (Some c) s).
Proof.
  intros p caller ctx Hn Hq.
  assert (Hnew : forall c',
            UnboundMethod_infer_call_result W p caller c'
            = (infer <- (match caller_args W caller with
                         | a :: _ => node_infer W a None
                         | [] => ret gen_empty
                         end) ;;
               ret (map (fun x => if is_Uninferable x && Uninferable_truth W
                                  then x else Instance x) (fst infer),
                    snd infer))).
  { intro c'. unfold UnboundMethod_infer_call_result.
    now rewrite Hn, Hq, !String.eqb_refl. }
  split; [|split].
  - intros s Ha. rewrite Hnew, Ha. reflexivity.
  - intros a rest s classes e s' Ha Hi Hall. rewrite Hnew, Ha.
    unfold bind. rewrite Hi. unfold ret. cbn [fst snd].
    f_equal. f_equal. f_equal. apply map_ext_in.
    intros x Hx. now rewrite (Hall x Hx).
  - intros b c s. unfold BoundMethod_infer_call_result.
    unfold bind, context_or_new, ret. now rewrite !Hnew.
Qed.

End CallFacts.

Lemma instance_call_yields_or_raises_witness :
  gen_raise (AttributeInferenceError
               (mkInfo None (Some Shop.Box) (Some "__call__") (Some Shop.ctx)
                       None None None None None))
  <> ([], None).
Proof.
  apply (proj1 (instance_call_yields_or_raises Shop.W (Instance Shop.Box)
                  Shop.call (Some Shop.ctx)) [[]] _ [[]]).
  reflexivity.
Defined.

Lemma object_new_gives_instances_witness :
  UnboundMethod_infer_call_result (Shop.with_call Shop.W) (FunctionDef 5)
    Shop.call (Some Shop.ctx) [[]]
  = Some ((map Instance [Shop.Box], None), [[]]).
Proof.
  apply (proj1 (proj2
           (object_new_gives_instances (Shop.with_call Shop.W) (FunctionDef 5)
              Shop.call (Some Shop.ctx) eq_refl eq_refl))
           Shop.Box [] [[]] [Shop.Box] None [[]]).
  - reflexivity.
  - reflexivity.
  - intros x [<- | []]. reflexivity.
Defined.

(** ** Instance.getitem and Instance.bool_value *)

Section InstanceFacts.

Variable W : World.
Variable G : Generators.

(** X7.  [getitem] takes the first value of [igetattr] for [__getitem__],
    whatever the generator would do after it, and wants it to be a bound
    method, raising [InferenceError] otherwise; it calls the method in a
    context that shares the visited set of the caller's, has the index as
    the only call argument and the instance as bound node, and returns the
    first value inferred for the call; a call that gives no value is an
    [InferenceError], never a [StopIteration], and any other exception of the
    call leaves [getitem] unchanged.  Without a context, one new context, with
    these call arguments and this bound node, serves the lookup and the
    call. *)
Theorem getitem_calls_the_bound_method :
  forall (self index : node),
    let behaves :=
      fun (context new_context : InferenceContext) (s0 : store)
          (outcome : option (result node * store)) =>
        forall (s1 : store) (method : node),
          first_value
            (BaseInstance_igetattr_gen W G self "__getitem__" (Some context)) s0
          = Some (Ok (Some method), s1) ->
          let failed :=
            InferenceError
              (mkInfo (Some (Text "Inference for {node!r}[{index!s}] failed."))
                      None None (Some context) None None None (Some self) None) in
          ((forall p b, method <> BoundMethod p b) ->
           outcome
           = Some (Raise (InferenceError
                     (mkInfo (Some (Text "Could not find __getitem__ for {node!r}."))
                             None None (Some context) None None None
                             (Some self) None)),
                   s1))
          /\ (forall p b,
                method = BoundMethod p b ->
                (forall v s2,
                    first_value
                      (BoundMethod_infer_call_result_gen W G p b self
                         (Some new_context)) s1
                    = Some (Ok (Some v), s2) ->
                    outcome = Some (Ok v, s2))
                /\ (forall s2,
                      first_value
                        (BoundMethod_infer_call_result_gen W G p b self
                           (Some new_context)) s1
                      = Some (Ok None, s2) ->
                      outcome = Some (Raise failed, s2))
                /\ (forall s2,
                      first_value
                        (BoundMethod_infer_call_result_gen W G p b self
                           (Some new_context)) s1
                      = Some (Raise StopIteration, s2) ->
                      outcome = Some (Raise failed, s2))
                /\ (forall e s2,
                      first_value
                        (BoundMethod_infer_call_result_gen W G p b self
                           (Some new_context)) s1
                      = Some (Raise e, s2) ->
                      e <> StopIteration ->
                      outcome = Some (Raise e, s2))) in
    (forall (c : InferenceContext) (s : store),
        behaves c (mkContext (path c) (Some [index]) (Some self)) s
          (Instance_getitem W G self index (Some c) s))
    /\ (forall s : store,
          let c := mkContext (List.length s) (Some [index]) (Some self) in
          behaves c c (s ++ [[]]) (Instance_getitem W G self index None s)).
Proof.
  intros self index behaves.
  assert (Hgen : forall context new_context s0 s1 method,
            first_value
              (BaseInstance_igetattr_gen W G self "__getitem__" (Some context)) s0
            = Some (Ok (Some method), s1) ->
            forall outcome,
              outcome
              = match method with
                | BoundMethod _ _ =>
                    (r <- first_value
                            (infer_call_result_gen W G method self
                               (Some new_context)) ;;
                     match r with
                     | Ok (Some v) => ret (Ok v)
                     | Ok None | Raise StopIteration =>
                         ret (Raise (InferenceError
                                (mkInfo
                                   (Some (Text "Inference for {node!r}[{index!s}] failed."))
                                   None None (Some context) None None None
                                   (Some self) None)))
                     | Raise e => ret (Raise e)
                     end) s1
                | _ =>
                    Some (Raise (InferenceError
                            (mkInfo
                               (Some (Text "Could not find __getitem__ for {node!r}."))
                               None None (Some context) None None None
                               (Some self) None)), s1)
                end ->
              ((forall p b, method <> BoundMethod p b) ->
               outcome
               = Some (Raise (InferenceError
                         (mkInfo
                            (Some (Text "Could not find __getitem__ for {node!r}."))
                            None None (Some context) None None None
                            (Some self) None)),
                       s1))
              /\ (forall p b,
                    method = BoundMethod p b ->
                    (forall v s2,
                        first_value
                          (BoundMethod_infer_call_result_gen W G p b self
                             (Some new_context)) s1
                        = Some (Ok (Some v), s2) ->
                        outcome = Some (Ok v, s2))
                    /\ (forall s2,
                          first_value
                            (BoundMethod_infer_call_result_gen W G p b self
                               (Some new_context)) s1
                          = Some (Ok None, s2) ->
                          outcome
                          = Some (Raise (InferenceError
                                    (mkInfo
                                       (Some (Text "Inference for {node!r}[{index!s}] failed."))
                                       None None (Some context) None None None
                                       (Some self) None)), s2))
                    /\ (forall s2,
                          first_value
                            (BoundMethod_infer_call_result_gen W G p b self
                               (Some new_context)) s1
                          = Some (Raise StopIteration, s2) ->
                          outcome
                          = Some (Raise (InferenceError
                                    (mkInfo
                                       (Some (Text "Inference for {node!r}[{index!s}] failed."))
                                       None None (Some context) None None None
                                       (Some self) None)), s2))
                    /\ (forall e s2,
                          first_value
                            (BoundMethod_infer_call_result_gen W G p b self
                               (Some new_context)) s1
                          = Some (Raise e, s2) ->
                          e <> StopIteration ->
                          outcome = Some (Raise e, s2)))).
  { intros context new_context s0 s1 method Hg outcome ->. split.
    - intro Hnot. destruct method; try reflexivity.
      now destruct (Hnot method1 method2).
    - intros p b ->. cbn [infer_call_result_gen]. unfold bind.
      split; [|split; [|split]].
      + now intros v s2 ->.
      + now intros s2 ->.
      + now intros s2 ->.
      + intros e s2 -> He. destruct e; try reflexivity. now destruct He. }
  split.
  - intros c s s1 method Hg.
    apply (Hgen c _ s s1 method Hg).
    unfold Instance_getitem. unfold bind at 1. unfold ret at 1.
    unfold bind at 1. rewrite Hg.
    destruct method; reflexivity.
  - intros s c s1 method Hg.
    apply (Hgen c c (s ++ [[]]) s1 method Hg).
    unfold Instance_getitem, bind, new_context, ret.
    cbv beta iota delta [set_boundnode set_callcontext path callcontext
                         boundnode].
    change (mkContext (List.length s) (Some [index]) (Some self)) with c.
    rewrite Hg.
    destruct method; reflexivity.
Qed.

(** X8.  [getitem] takes the first candidate with a bare [next]: when
    [igetattr] yields nothing and raises nothing, as it does when the guard
    of the context has the pair already, the [StopIteration] leaves
    [getitem] as it is. *)
Theorem getitem_on_visited_pair_stops :
  forall (p index : node) (c : InferenceContext) (s : store),
    mem_key (p, "__getitem__") (visited s c) = true ->
    Instance_getitem W G (Instance p) index (Some c) s
    = Some (Raise StopIteration, s).
Proof.
  intros p index c s Hm. unfold Instance_getitem.
  unfold bind at 1. unfold ret at 1. unfold bind.
  now rewrite (igetattr_gen_seen W G (Instance p) p _ c s eq_refl Hm).
Qed.

(** X9.  [bool_value] never raises [InferenceError] or
    [AttributeInferenceError]: whatever it raises is an exception of another
    kind, raised by one of the two probes. *)
Theorem bool_value_absorbs_inference_errors :
  forall (self : node) (s s' : store) (e : exc),
    Instance_bool_value W G self s = Some (Raise e, s') ->
    inference_failure e = false.
Proof.
  intros self s s' e. unfold Instance_bool_value, bind.
  destruct (new_context s) as [[c s0]|]; [|discriminate].
  destruct (_infer_method_result_truth W G self (BOOL_SPECIAL_METHOD W) _ s0)
    as [[[t|e1] s1]|]; try discriminate.
  destruct (inference_failure e1) eqn:E1.
  - destruct (_infer_method_result_truth W G self "__len__" _ s1)
      as [[[t|e2] s2]|]; try discriminate.
    destruct (inference_failure e2) eqn:E2; try discriminate.
    now intros [= <- _].
  - now intros [= <- _].
Qed.

End InstanceFacts.

Lemma getitem_calls_the_bound_method_witness :
  Instance_getitem Shop.W Shop.gens (Instance Shop.Pallet) (Other 1)
    (Some Shop.ctx) [[]]
  = Some (Ok (Other 7), [[(Shop.Pallet, "__getitem__")]]).
Proof.
  apply (proj1 (proj2
           (proj1
              (getitem_calls_the_bound_method Shop.W Shop.gens
                 (Instance Shop.Pallet) (Other 1))
              Shop.ctx [[]] [[(Shop.Pallet, "__getitem__")]]
              (BoundMethod (FunctionDef 3) (Instance Shop.Pallet))
              eq_refl)
           (FunctionDef 3) (Instance Shop.Pallet) eq_refl)
           (Other 7) [[(Shop.Pallet, "__getitem__")]]).
  reflexivity.
Defined.

Lemma getitem_on_visited_pair_stops_witness :
  Instance_getitem Shop.W Shop.gens (Instance Shop.Pallet) (Other 1)
    (Some Shop.ctx) [[(Shop.Pallet, "__getitem__")]]
  = Some (Raise StopIteration, [[(Shop.Pallet, "__getitem__")]]).
Proof.
  apply (getitem_on_visited_pair_stops Shop.W Shop.gens Shop.Pallet (Other 1)
           Shop.ctx).
  reflexivity.
Defined.

Lemma bool_value_absorbs_inference_errors_witness :
  inference_failure AttributeError = false.
Proof.
  apply (bool_value_absorbs_inference_errors (Shop.with_failing_truth Shop.W)
           Shop.gens (Instance Shop.Flag) [] [[(Shop.Flag, "__bool__")]]).
  reflexivity.
Defined.

(** [getitem] on an instance of [Seq] above takes the first candidate for
    [__getitem__] and calls it; the property of [Base], the second candidate,
    is not called. *)
Example getitem_takes_the_first_candidate :
  Instance_getitem Seqs.W Seqs.gens (Instance Seqs.Seq) (Other 1)
    (Some Seqs.ctx) [[]]
  = Some (Ok (Other 9), [[(Seqs.Seq, "m"); (Seqs.Seq, "__getitem__")]])
  /\ Instance_getitem Seqs.W Seqs.gens (Instance Seqs.Seq) (Other 1) None []
     = Some (Ok (Other 9), [[(Seqs.Seq, "m"); (Seqs.Seq, "__getitem__")]]).
Proof. repeat split; vm_compute; reflexivity. Qed.

(** ** Super, further *)

Lemma mem_node_split : forall p m,
  mem_node p m = true ->
  exists pre post, m = pre ++ p :: post /\ mem_node p pre = false.
Proof.
  intros p m. induction m as [|h t IH]; simpl; [discriminate|].
  destruct (node_eqb p h) eqn:E; simpl.
  - intros _. apply node_eqb_eq in E. subst h. now exists [], t.
  - intro H. destruct (IH H) as (pre & post & -> & Hpre).
    exists (h :: pre), post. split; auto. simpl. now rewrite E.
Qed.

Section SuperFacts.

Variable W : World.

(** X10.  When [super_mro] returns a list, all four checks passed and the
    list is what follows the first occurrence of [mro_pointer] in the MRO of
    the target; so it is strictly shorter than that MRO. *)
Theorem super_mro_success_inversion :
  forall (p t sc scope : node) (cb : bool) (l : list node) (self' : node),
    Super_super_mro W (Super p t sc scope cb) = (Ok l, self') ->
    is_ClassDef p = true
    /\ exists target m pre,
         resolves_to W p t sc scope cb target self'
         /\ newstyle W (forwarded target) = true
         /\ mro W (forwarded target) = Ok m
         /\ m = pre ++ p :: l
         /\ mem_node p pre = false
         /\ List.length l < List.length m.
Proof.
  intros p t sc scope cb l self' H.
  destruct (is_ClassDef p) eqn:Hp; [|simpl in H; rewrite Hp in H; discriminate].
  split; auto.
  assert (Hres : exists target s1,
            resolves_to W p t sc scope cb target s1).
  { unfold resolves_to. simpl in H. rewrite Hp in H. simpl in H.
    destruct (is_ClassDef t) eqn:Ht.
    - exists t, (Super p t sc scope true). left. auto.
    - destruct (proxied W t) as [q|] eqn:Hq; [|discriminate].
      destruct (is_Instance q || is_ClassDef q) eqn:Hi; [|discriminate].
      exists q, (Super p t sc scope cb). right. auto. }
  destruct Hres as (target & s1 & Hres).
  rewrite (super_mro_resolved W _ _ _ _ _ _ _ Hp Hres) in H.
  destruct (newstyle W (forwarded target)) eqn:Hn; [|discriminate].
  simpl in H.
  destruct (mro W (forwarded target)) as [m|e] eqn:Hm; [|discriminate].
  destruct (mem_node p m) eqn:Hmem; [|discriminate].
  simpl in H. injection H as Hl <-.
  destruct (mem_node_split p m Hmem) as (pre & post & -> & Hpre).
  rewrite index_of_first, skipn_after in Hl by exact Hpre. subst post.
  exists target, (pre ++ p :: l), pre. repeat split; auto.
  rewrite length_app. simpl. lia.
Qed.

(** X11.  [super_mro] can be asked again: on the object it leaves behind it
    gives the same answer and leaves the same object, so every lookup on one
    super object walks the same classes. *)
Theorem super_mro_is_repeatable :
  forall (self : node),
    Super_super_mro W (snd (Super_super_mro W self)) = Super_super_mro W self.
Proof.
  intros [| | | | | | | | |p t sc scope cb]; try reflexivity.
  destruct (is_ClassDef p) eqn:Hp.
  - assert (Hcases :
      (exists target self', resolves_to W p t sc scope cb target self'
                            /\ resolves_to W p t sc scope
                                 (is_class_based self') target self'
                            /\ self' = Super p t sc scope (is_class_based self'))
      \/ Super_super_mro W (Super p t sc scope cb)
         = (Raise (super_error second_argument_message (Super p t sc scope cb)),
            Super p t sc scope cb)).
    { unfold resolves_to. destruct (is_ClassDef t) eqn:Ht.
      - left. exists t, (Super p t sc scope true). simpl. auto 10.
      - destruct (proxied W t) as [q|] eqn:Hq.
        + destruct (is_Instance q || is_ClassDef q) eqn:Hi.
          * left. exists q, (Super p t sc scope cb). simpl. auto 10.
          * right. simpl. rewrite Hp, Ht. simpl. now rewrite Hq, Hi.
        + right. simpl. rewrite Hp, Ht. simpl. now rewrite Hq. }
    destruct Hcases as [(target & self' & Hres & Hres' & Hself) | Herr].
    + rewrite (super_mro_resolved W _ _ _ _ _ _ _ Hp Hres).
      destruct (negb (newstyle W (forwarded target))) eqn:Hn.
      * cbn [snd]. rewrite Hself at 1.
        rewrite (super_mro_resolved W _ _ _ _ _ _ _ Hp Hres'). now rewrite Hn.
      * destruct (mro W (forwarded target)) as [m|e] eqn:Hm.
        -- destruct (negb (mem_node p m)) eqn:Hmem; cbn [snd];
             rewrite Hself at 1;
             rewrite (super_mro_resolved W _ _ _ _ _ _ _ Hp Hres');
             now rewrite Hn, Hm, Hmem.
        -- cbn [snd]. rewrite Hself at 1.
           rewrite (super_mro_resolved W _ _ _ _ _ _ _ Hp Hres').
           now rewrite Hn, Hm.
    + rewrite Herr. cbn [snd]. exact Herr.
  - assert (Herr : Super_super_mro W (Super p t sc scope cb)
                   = (Raise (super_error
                        "The first argument to super must be a subtype of type, not {mro_pointer}."
                        (Super p t sc scope cb)), Super p t sc scope cb)).
    { simpl. now rewrite Hp. }
    rewrite Herr. cbn [snd]. exact Herr.
Qed.

End SuperFacts.

Lemma super_mro_success_inversion_witness :
  is_ClassDef Demo.B = true
  /\ exists target m pre,
       resolves_to Demo.W Demo.B (Instance Demo.C) Demo.C (FunctionDef 0) false
         target (Super Demo.B (Instance Demo.C) Demo.C (FunctionDef 0) false)
       /\ newstyle Demo.W (forwarded target) = true
       /\ mro Demo.W (forwarded target) = Ok m
       /\ m = pre ++ Demo.B :: [Demo.A; Demo.object_]
       /\ mem_node Demo.B pre = false
       /\ List.length [Demo.A; Demo.object_] < List.length m.
Proof.
  apply (super_mro_success_inversion Demo.W Demo.B (Instance Demo.C) Demo.C
           (FunctionDef 0) false).
  reflexivity.
Defined.

Section SuperWalkFacts.

Variable W : World.

Lemma gen_prepend_nil : forall g, gen_prepend [] g = g.
Proof. now intros [v e]. Qed.

(** X12.  The walk over the MRO does not stop at the first class that
    declares the name: once a first part of the MRO was walked without an
    error, what it yielded is followed by what the rest of the MRO yields, and
    a miss in the rest is no error any more. *)
Theorem super_walk_continues_after_a_find :
  forall (self : node) (name : string) (ctx : option InferenceContext)
         (l1 l2 : list node) (found : bool) (s s1 : store) (v : list node),
    Super_igetattr_walk W self name ctx l1 found s = Some ((v, None), s1) ->
    Super_igetattr_walk W self name ctx (l1 ++ l2) found s
    = (r <- Super_igetattr_walk W self name ctx l2 true ;;
       ret (gen_prepend v r)) s1.
Proof.
  intros self name ctx l1 l2. induction l1 as [|c l1 IH];
    intros found s s1 v H.
  - simpl in H. destruct found; [|discriminate].
    injection H as <- <-. simpl. unfold bind.
    destruct (Super_igetattr_walk W self name ctx l2 true s) as [[r s2]|];
      [|reflexivity].
    unfold ret. now rewrite gen_prepend_nil.
  - simpl in H |- *. destruct (locals W c name) as [stmt|]; [|now apply IH].
    unfold bind in H |- *.
    destruct (infer_stmts W (gen_of_list [stmt]) ctx self s) as [[stmts sa]|];
      [|discriminate].
    destruct (for_each stmts (Super_igetattr_inferred W self c ctx) sa)
      as [[[gv [ge|]] sb]|]; try discriminate.
    cbn [snd fst] in H |- *.
    destruct (Super_igetattr_walk W self name ctx l1 true sb)
      as [[[rv re] sc]|] eqn:Hw; [|discriminate].
    unfold ret, gen_prepend in H. cbn [fst snd] in H.
    injection H as <- -> <-.
    rewrite (IH true sb sc rv Hw). unfold bind.
    destruct (Super_igetattr_walk W self name ctx l2 true sc) as [[r2 sd]|];
      [|reflexivity].
    unfold ret, gen_prepend. cbn [fst snd]. now rewrite app_assoc.
Qed.

(** X13.  A super object looks past its [mro_pointer]: when no class after
    the pointer declares the name, the lookup raises
    [AttributeInferenceError], whatever the pointer's class and the classes
    before it declare. *)
Theorem super_lookup_skips_the_pointer :
  forall (p t sc scope : node) (cb : bool) (target self' : node)
         (pre post : list node) (name : string)
         (ctx : option InferenceContext) (s : store),
    special_lookup W (Super p t sc scope cb) name = None ->
    is_ClassDef p = true ->
    resolves_to W p t sc scope cb target self' ->
    newstyle W (forwarded target) = true ->
    mro W (forwarded target) = Ok (pre ++ p :: post) ->
    mem_node p pre = false ->
    (forall c, In c post -> locals W c name = None) ->
    Super_igetattr W (Super p t sc scope cb) name ctx s
    = Some (gen_raise (AttributeInferenceError
              (mkInfo None (Some self') (Some name) ctx
                      None None None None None)), s).
Proof.
  intros p t sc scope cb target self' pre post name ctx s Hs Hp Hres Hn Hm
         Hpre Habs.
  unfold Super_igetattr. rewrite Hs.
  rewrite (super_mro_resolved W _ _ _ _ _ _ _ Hp Hres). rewrite Hn, Hm.
  rewrite mem_node_app. simpl. rewrite node_eqb_refl, orb_true_r. simpl.
  rewrite index_of_first, skipn_after by exact Hpre.
  now rewrite (walk_absent W self' name ctx post false s Habs).
Qed.

End SuperWalkFacts.

Lemma super_walk_continues_after_a_find_witness :
  Super_igetattr_walk Shop.W
    (Super Shop.Pallet (Instance Shop.Pallet) Shop.Pallet (FunctionDef 0) false)
    "__getitem__" None ([Shop.Crate] ++ [Shop.Box; Shop.object_]) false []
  = Some (gen_of_list [BoundMethod (FunctionDef 3) Shop.Crate;
                       BoundMethod (FunctionDef 0) Shop.Box], []).
Proof.
  rewrite (super_walk_continues_after_a_find Shop.W
             (Super Shop.Pallet (Instance Shop.Pallet) Shop.Pallet
                    (FunctionDef 0) false)
             "__getitem__" None [Shop.Crate] [Shop.Box; Shop.object_] false
             [] [] [BoundMethod (FunctionDef 3) Shop.Crate] eq_refl).
  reflexivity.
Defined.

Lemma super_lookup_skips_the_pointer_witness :
  Super_igetattr Shop.W
    (Super Shop.Box (Instance Shop.Pallet) Shop.Pallet (FunctionDef 0) false)
    "__getitem__" None []
  = Some (gen_raise (AttributeInferenceError
            (mkInfo None
               (Some (Super Shop.Box (Instance Shop.Pallet) Shop.Pallet
                            (FunctionDef 0) false))
               (Some "__getitem__") None None None None None None)), []).
Proof.
  apply (super_lookup_skips_the_pointer Shop.W Shop.Box (Instance Shop.Pallet)
           Shop.Pallet (FunctionDef 0) false Shop.Pallet
           (Super Shop.Box (Instance Shop.Pallet) Shop.Pallet (FunctionDef 0) false)
           [Shop.Pallet; Shop.Crate] [Shop.object_] "__getitem__" None []).
  - reflexivity.
  - reflexivity.
  - right. repeat split; reflexivity.
  - reflexivity.
  - reflexivity.
  - reflexivity.
  - intros c [<- | []]. reflexivity.
Defined.

(** ** BaseInstance._wrap_attr, further *)

Section WrapFacts.

Variable W : World.

Lemma wrap_attr_identity : forall self ctx attrs tail s,
  (forall a, In a attrs ->
             is_UnboundMethod a = false
             /\ node_name W (forwarded a) <> Some "<lambda>") ->
  _wrap_attr W self (attrs, tail) ctx s = Some ((attrs, tail), s).
Proof.
  intros self ctx attrs tail s. unfold _wrap_attr, for_each. cbn [fst snd].
  revert s. induction attrs as [|a attrs IH]; intros s H; [reflexivity|].
  simpl. unfold bind.
  destruct (H a (or_introl eq_refl)) as [Hu Hn].
  assert (Hbody : _wrap_attr_body W self ctx a s = Some (gen_of_list [a], s)).
  { unfold _wrap_attr_body. rewrite Hu.
    destruct (node_name W (forwarded a)) as [n|]; [|reflexivity].
    destruct (String.eqb n "<lambda>") eqn:E; [|reflexivity].
    apply String.eqb_eq in E. subst n. now destruct Hn. }
  rewrite Hbody. cbn [snd fst gen_of_list].
  rewrite IH by (intros x Hx; apply H; now right). reflexivity.
Qed.

(** What [_wrap_attr] makes of an attribute that is no method object. *)
Lemma wrap_attr_body_other : forall self ctx a s,
  is_UnboundMethod a = false ->
  _wrap_attr_body W self ctx a s
  = Some (gen_of_list
            [if match node_name W (forwarded a) with
                | Some n => String.eqb n "<lambda>"
                | None => false
                end
                && statement_scope_is_class W a
                && match first_arg_name W a with
                   | Some n => String.eqb n "self"
                   | None => false
                   end
             then BoundMethod a self else a], s).
Proof.
  intros self ctx a s Hu. unfold _wrap_attr_body. rewrite Hu.
  destruct (match node_name W (forwarded a) with
            | Some n => String.eqb n "<lambda>"
            | None => false
            end); [|reflexivity].
  cbn [andb].
  now destruct (statement_scope_is_class W a && _).
Qed.

(** X14.  [_wrap_attr] hands on, unchanged and in order, every attribute that
    is neither a method object nor called [<lambda>], and ends as the
    sequence it was given ends; in a sequence without method objects, of any
    length, each lambda, wherever it stands, is bound to the instance exactly
    when it was written in a class body and its first parameter is called
    [self], and every other attribute is handed on. *)
Theorem wrap_attr_passes_other_attributes :
  forall (self : node) (ctx : option InferenceContext),
    (forall attrs tail s,
        (forall a, In a attrs ->
                   is_UnboundMethod a = false
                   /\ node_name W (forwarded a) <> Some "<lambda>") ->
        _wrap_attr W self (attrs, tail) ctx s = Some ((attrs, tail), s))
    /\ (forall attrs tail s,
          (forall a, In a attrs ->
                     (forall g, a <> UnboundMethod g)
                     /\ (forall g b, a <> BoundMethod g b)) ->
          _wrap_attr W self (attrs, tail) ctx s
          = Some ((map (fun a =>
                          if match node_name W (forwarded a) with
                             | Some n => String.eqb n "<lambda>"
                             | None => false
                             end
                             && statement_scope_is_class W a
                             && match first_arg_name W a with
                                | Some n => String.eqb n "self"
                                | None => false
                                end
                          then BoundMethod a self else a) attrs,
                   tail), s)).
Proof.
  intros self ctx. split.
  - intros attrs tail s. apply wrap_attr_identity.
  - intros attrs tail s. revert s.
    induction attrs as [|a attrs IH]; intros s H; [reflexivity|].
    rewrite wrap_attr_cons.
    assert (Hu : is_UnboundMethod a = false).
    { destruct (H a (or_introl eq_refl)) as [Hum Hbm].
      destruct a; try reflexivity; exfalso;
        [eapply Hum | eapply Hbm]; reflexivity. }
    rewrite (wrap_attr_body_other self ctx a s Hu). unfold gen_of_list.
    rewrite IH by (intros x Hx; apply H; now right).
    reflexivity.
Qed.

(** X17.  [igetattr] asks the class only when the instance-level lookup
    raised [AttributeInferenceError]: for a name the instance declares, what
    it yields is the statement inference of those declarations, and the
    class's declarations of the name are not offered. *)
Theorem igetattr_prefers_instance_attributes :
  forall (c : node) (name : string) (ctx : InferenceContext) (s s2 : store)
         (values : list node) (g : gen),
    instance_attr W c name (Some ctx) = Ok values ->
    (forall a, In a values ->
               is_UnboundMethod a = false
               /\ node_name W (forwarded a) <> Some "<lambda>") ->
    mem_key (c, name) (visited s ctx) = false ->
    infer_stmts W (gen_of_list values) (Some ctx) (Instance c)
      (record_visit ctx (c, name) s) = Some (g, s2) ->
    (forall i, snd g <> Some (AttributeInferenceError i)) ->
    BaseInstance_igetattr W (Instance c) name (Some ctx) s = Some (g, s2).
Proof.
  intros c name ctx s s2 values g Hi Hplain Hm Hinf Herr.
  rewrite (igetattr_unseen W (Instance c) c name ctx s eq_refl Hm).
  unfold bind at 1. unfold igetattr_instance_path.
  unfold BaseInstance_getattr, proxied. rewrite Hi.
  unfold bind at 1. unfold gen_of_list at 1.
  rewrite wrap_attr_identity by exact Hplain.
  fold (gen_of_list values). rewrite Hinf.
  destruct g as [v [[i| | | | |]|]]; cbn [snd]; try reflexivity.
  now destruct (Herr i).
Qed.

End WrapFacts.

Lemma wrap_attr_passes_other_attributes_witness :
  _wrap_attr (Shop.with_class_lambdas Shop.W) (Instance Shop.Box)
    ([Other 3; Lambda 1; Lambda 2; Shop.Crate; Lambda 3; Lambda 1], None)
    (Some Shop.ctx) [[]]
  = Some (([Other 3; BoundMethod (Lambda 1) (Instance Shop.Box); Lambda 2;
            Shop.Crate; Lambda 3; BoundMethod (Lambda 1) (Instance Shop.Box)],
           None), [[]]).
Proof.
  apply (proj2 (wrap_attr_passes_other_attributes
                  (Shop.with_class_lambdas Shop.W) (Instance Shop.Box)
                  (Some Shop.ctx))
           [Other 3; Lambda 1; Lambda 2; Shop.Crate; Lambda 3; Lambda 1]
           None [[]]).
  intros a [<- | [<- | [<- | [<- | [<- | [<- | []]]]]]]; split; discriminate.
Defined.

(** ** Termination on attribute chains, further *)

Section SuperLevels.

Import Chains.

Variable T : table.
Variables cb1 cb2 : node -> string -> option InferenceContext -> M gen.
Variables cbb1 cbb2 : node -> M (result truth).
Variables cbc1 cbc2 : node -> node -> option InferenceContext -> M gen.

Let W1 : World := world_of T cb1 cbb1 cbc1.
Let W2 : World := world_of T cb2 cbb2 cbc2.

Lemma super_inferred_agree : forall r s0 self cls c inferred,
  agree_from r s0 cb1 cb2 -> path c = r ->
  ok2 r s0 (Super_igetattr_inferred W1 self cls (Some c) inferred)
           (Super_igetattr_inferred W2 self cls (Some c) inferred).
Proof.
  intros r s0 self cls c inferred Hcb Hc. unfold Super_igetattr_inferred.
  destruct inferred; simpl is_FunctionDef; cbn [negb]; try apply ok2_ret.
  change (is_property W2 (FunctionDef id)) with (is_property W1 (FunctionDef id)).
  unfold W1, W2. cbn [node_type node_infer_call_result world_of].
  repeat match goal with
         | |- context [if ?b then _ else _] => destruct b
         end; try apply ok2_ret.
  now apply function_call_agree.
Qed.

Lemma super_walk_agree : forall r s0 self name c mro found,
  agree_from r s0 cb1 cb2 -> path c = r ->
  ok2 r s0 (Super_igetattr_walk W1 self name (Some c) mro found)
           (Super_igetattr_walk W2 self name (Some c) mro found).
Proof.
  intros r s0 self name c mro found Hcb Hc. revert found.
  induction mro as [|cls mro IH]; intro found; cbn [Super_igetattr_walk].
  - destruct found; apply ok2_ret.
  - change (locals W2 cls name) with (locals W1 cls name).
    destruct (locals W1 cls name) as [stmt|]; [|exact (IH found)].
    apply ok2_bind.
    + unfold W1, W2. cbn [infer_stmts world_of]. apply ok2_ret.
    + intro stmts. apply ok2_bind.
      * unfold for_each. apply ok2_for_list. intros x _.
        now apply super_inferred_agree.
      * intros [v [e|]]; cbn [snd fst]; [apply ok2_ret|].
        apply ok2_bind; [exact (IH true) | intro; apply ok2_ret].
Qed.

Lemma super_igetattr_agree : forall r s0 self name c,
  agree_from r s0 cb1 cb2 -> path c = r ->
  ok2 r s0 (Super_igetattr W1 self name (Some c))
           (Super_igetattr W2 self name (Some c)).
Proof.
  intros r s0 self name c Hcb Hc. unfold Super_igetattr.
  change (special_lookup W2 self name) with (special_lookup W1 self name).
  destruct (special_lookup W1 self name); [apply ok2_ret|].
  change (Super_super_mro W2 self) with (Super_super_mro W1 self).
  destruct (Super_super_mro W1 self) as [[mro|[]] self']; try apply ok2_ret.
  now apply super_walk_agree.
Qed.

End SuperLevels.

Section MoreTermination.

Import Chains.

Variable T : table.

Lemma callbacks_agree : forall n1 n2 c s,
  bound T <= n1 -> bound T <= n2 ->
  path c < List.length s ->
  agree_from (path c) s (BaseInstance_igetattr (world T n1))
                        (BaseInstance_igetattr (world T n2)).
Proof.
  intros n1 n2 c s H1 H2 Hp p n c' Hc' s2 Hs2. rewrite <- Hc'.
  apply (igetattr_enough_fuel T (bound T)); auto.
  - rewrite Hc'. pose proof (proj1 Hs2). lia.
  - apply remaining_le_bound.
Qed.

(** X15.  On a program whose getters are attribute chains, [Super.igetattr]
    returns as well: the getters it calls for property-like functions run
    under the guard of the context they are given, and the result is the same
    for every recursion depth above [bound T]. *)
Theorem super_igetattr_terminates :
  forall (self : node) (name : string) (c : InferenceContext) (s : store),
    path c < List.length s ->
    exists g s',
      forall fuel, bound T < fuel ->
        Super_igetattr (world T fuel) self name (Some c) s = Some (g, s').
Proof.
  intros self name c s Hp.
  assert (Hpair : forall f1 f2, bound T < f1 -> bound T < f2 ->
            exists g s',
              Super_igetattr (world T f1) self name (Some c) s = Some (g, s')
              /\ Super_igetattr (world T f2) self name (Some c) s = Some (g, s')).
  { intros [|n1] [|n2] H1 H2; try lia.
    assert (Hcb : agree_from (path c) s (BaseInstance_igetattr (world T n1))
                                        (BaseInstance_igetattr (world T n2)))
      by (apply callbacks_agree; auto; lia).
    destruct (super_igetattr_agree T
                (BaseInstance_igetattr (world T n1))
                (BaseInstance_igetattr (world T n2))
                (Instance_bool_value (world T n1) (generators T n1))
                (Instance_bool_value (world T n2) (generators T n2))
                (BaseInstance_infer_call_result (world T n1))
                (BaseInstance_infer_call_result (world T n2))
                (path c) s self name c Hcb eq_refl s (ext_refl _ _))
      as (g & s' & E1 & E2 & _).
    exists g, s'. split; assumption. }
  destruct (Hpair (S (bound T)) (S (bound T))) as (g & s' & E & _); try lia.
  exists g, s'. intros fuel Hf.
  destruct (Hpair (S (bound T)) fuel) as (g' & s'' & E1 & E2); try lia.
  congruence.
Qed.

End MoreTermination.

Lemma super_igetattr_terminates_witness :
  exists g s',
    forall fuel, Chains.bound Shop.program < fuel ->
      Super_igetattr (Chains.world Shop.program fuel)
        (Super Shop.Crate (Instance Shop.Pallet) Shop.Pallet (FunctionDef 3) false)
        "size" (Some Shop.ctx) [[]]
      = Some (g, s').
Proof.
  apply (super_igetattr_terminates Shop.program).
  simpl. lia.
Defined.

Section LookupBody.

Import Chains.

Variable T : table.
Variables cb1 cb2 : node -> string -> option InferenceContext -> M gen.
Variables cbb1 cbb2 : node -> M (result truth).
Variables cbc1 cbc2 : node -> node -> option InferenceContext -> M gen.

Let W1 : World := world_of T cb1 cbb1 cbc1.
Let W2 : World := world_of T cb2 cbb2 cbc2.

(** What [igetattr] does once the guard let it pass. *)
Lemma igetattr_paths_agree : forall p name c s1,
  agree_from (path c) s1 cb1 cb2 ->
  ok2 (path c) s1
    (first <- igetattr_instance_path W1 (Instance p) name c ;;
     match snd first with
     | Some (AttributeInferenceError _) =>
         second <- igetattr_class_path W1 (Instance p) p name c ;;
         ret (gen_prepend (fst first) second)
     | _ => ret first
     end)
    (first <- igetattr_instance_path W2 (Instance p) name c ;;
     match snd first with
     | Some (AttributeInferenceError _) =>
         second <- igetattr_class_path W2 (Instance p) p name c ;;
         ret (gen_prepend (fst first) second)
     | _ => ret first
     end).
Proof.
  intros p name c s1 Hcb. apply ok2_bind.
  - unfold igetattr_instance_path.
    change (BaseInstance_getattr W2 (Instance p) name (Some c) false)
      with (BaseInstance_getattr W1 (Instance p) name (Some c) false).
    destruct (BaseInstance_getattr W1 (Instance p) name (Some c) false)
      as [attrs|e] eqn:Hg; [|apply ok2_ret].
    apply ok2_bind.
    + apply wrap_agree; [auto | | reflexivity].
      intros a Ha.
      now destruct (getattr_plain T cb1 cbb1 cbc1 _ _ _ _ _ Hg Ha).
    + intros [[|x l] [e|]]; apply ok2_ret.
  - intros [v [[]|]]; try apply ok2_ret.
    apply ok2_bind; [|intro; apply ok2_ret].
    unfold igetattr_class_path, W1, W2. cbn [class_igetattr world_of].
    unfold t_igetattr, t_getattr.
    destruct (lookup_in T c_locals p name) as [|x l] eqn:El.
    + apply ok2_bind_ret. apply ok2_bind.
      * apply wrap_agree; [auto | | reflexivity]. intros a [].
      * intros [w [[]|]]; apply ok2_ret.
    + apply ok2_bind_ret. apply ok2_bind.
      * apply wrap_agree; [auto | | reflexivity].
        intros a Ha. unfold gen_of_list in Ha. cbn [fst] in Ha.
        rewrite <- El in Ha.
        apply in_map_iff in Ha. destruct Ha as (y & <- & Hy).
        apply lookup_in_plain in Hy. destruct Hy as (d & ->).
        apply function_to_method_plain.
      * intros [w [[]|]]; apply ok2_ret.
Qed.

End LookupBody.

Section Repeat.

Import Chains.

Variable T : table.

(** X16.  The guard is never undone: on a program whose getters are
    attribute chains, a lookup that returned has left its pair in the visited
    set of the context, so the same lookup made again with that context
    yields nothing and changes nothing. *)
Theorem igetattr_again_yields_nothing :
  forall (p : node) (name : string) (c : InferenceContext) (s : store)
         (fuel : nat),
    path c < List.length s ->
    bound T < fuel ->
    exists g s',
      BaseInstance_igetattr (world T fuel) (Instance p) name (Some c) s
      = Some (g, s')
      /\ mem_key (p, name) (visited s' c) = true
      /\ BaseInstance_igetattr (world T fuel) (Instance p) name (Some c) s'
         = Some (gen_empty, s').
Proof.
  intros p name c s fuel Hp Hf.
  assert (Hkey : exists g s',
            BaseInstance_igetattr (world T fuel) (Instance p) name (Some c) s
            = Some (g, s')
            /\ mem_key (p, name) (visited s' c) = true).
  { destruct (mem_key (p, name) (visited s c)) eqn:Hm.
    - exists gen_empty, s. split; auto.
      now apply (igetattr_seen _ (Instance p) p).
    - rewrite (igetattr_unseen _ (Instance p) p name c s eq_refl Hm).
      destruct fuel as [|n]; [lia|]. simpl world.
      set (s1 := record_visit c (p, name) s).
      assert (Hp1 : path c < List.length s1).
      { unfold s1, record_visit. now rewrite length_set_nth. }
      assert (Hcb : agree_from (path c) s1 (BaseInstance_igetattr (world T n))
                                           (BaseInstance_igetattr (world T n)))
        by (apply callbacks_agree; auto; lia).
      destruct (igetattr_paths_agree T _ _ (Instance_bool_value (world T n) (generators T n))
                  (Instance_bool_value (world T n) (generators T n))
                  (BaseInstance_infer_call_result (world T n))
                  (BaseInstance_infer_call_result (world T n))
                  p name c s1 Hcb s1 (ext_refl _ _))
        as (g & s' & E & _ & He).
      exists g, s'. split; [exact E|].
      apply (proj2 He). unfold s1. fold (visited (record_visit c (p, name) s) c).
      rewrite visited_record by exact Hp.
      unfold mem_key. simpl. now rewrite key_eqb_refl. }
  destruct Hkey as (g & s' & E & Hk).
  exists g, s'. repeat split; auto.
  now apply (igetattr_seen _ (Instance p) p).
Qed.

End Repeat.

Lemma igetattr_again_yields_nothing_witness :
  exists g s',
    BaseInstance_igetattr (Chains.world Shop.program 100) (Instance Shop.Pallet)
      "size" (Some Shop.ctx) [[]]
    = Some (g, s')
    /\ mem_key (Shop.Pallet, "size") (visited s' Shop.ctx) = true
    /\ BaseInstance_igetattr (Chains.world Shop.program 100) (Instance Shop.Pallet)
         "size" (Some Shop.ctx) s'
       = Some (gen_empty, s').
Proof.
  apply (igetattr_again_yields_nothing Shop.program).
  - simpl. lia.
  - vm_compute. lia.
Defined.

Lemma igetattr_prefers_instance_attributes_witness :
  BaseInstance_igetattr Demo.W (Instance Demo.A) "n" (Some Demo.ctx) [[]]
  = Some (gen_of_list [Other 7], [[(Demo.A, "n")]]).
Proof.
  apply (igetattr_prefers_instance_attributes Demo.W Demo.A "n" Demo.ctx [[]]
           [[(Demo.A, "n")]] [Other 7] (gen_of_list [Other 7])).
  - reflexivity.
  - intros a [<- | []]. split; [reflexivity | discriminate].
  - reflexivity.
  - reflexivity.
  - discriminate.
Defined.
